(** * template-custom-agent-go: agent loop, tool registry and MCP server pool

    A shallow embedding of the Go packages [blaxel] (wire types, MCP
    manager), [agent] (tool manager, agent loop) and [router] (tool
    listing handlers), with the properties of the agent loop and of
    tool routing proved over it.

    Conventions.
    - Go [int]/[int64] values are integers in [Z]; the only arithmetic
      the embedded code performs on them is the loop counter of
      [Agent.Run], discussed at [Run_loop].
    - Go maps are [gmap]; a possibly-nil map is an [option (gmap _ _)].
    - Go slices are lists; [nil] and the empty slice are both [[]],
      which is all [len] and [range] can tell.
    - Whatever lives outside the process (model endpoint, MCP backends,
      clock, the runtime's map iteration order) and the library calls
      whose code is not part of the repository (encoding/json, the MCP
      SDK) are the operations of the class [Externals]; they thread an
      explicit [World].
    - Every effectful function returns, next to its Go results, the list
      of external calls it made ([Event]s), in order. *)

From stdpp Require Import gmap strings list fin_maps pretty.

Set Warnings "-register-all".
Set Default Proof Using "Type".

Open Scope Z_scope.

(** ** encoding/json values, as [json.Unmarshal] stores them in an
    [interface{}]. A number keeps its lexeme; the code never computes
    with one. [JNull] is the nil interface. *)
Inductive json :=
  | JNull
  | JBool (b : bool)
  | JNumber (lexeme : string)
  | JString (s : string)
  | JArray (l : list json)
  | JObject (m : gmap string json).

(** ** Go [error] values. One constructor per [fmt.Errorf] site of the
    embedded code, [%w] arguments kept as sub-terms; [ErrExternal] is an
    error made outside the repository. *)
Inductive error :=
  | ErrExternal (msg : string)
  | ErrAIResponse (iteration : Z) (cause : error)
  | ErrNoChoices (iteration : Z)
  | ErrExecuteTool (name : string) (iteration : Z) (cause : error)
  | ErrParseArguments (cause : error)
  | ErrNoServer (name : string)
  | ErrCallTool (name : string) (cause : error)
  | ErrMarshalResult (cause : error)
  | ErrServerNotFound (serverName : string)
  | ErrListTools (cause : error)
  | ErrMarshalRequest (cause : error)
  | ErrCreateChatCompletion (cause : error)
  | ErrReadBody (cause : error)
  | ErrAPIStatus (status : Z) (body : string)
  | ErrAPI (message : string)
  | ErrUnmarshalResponse (cause : error).

(** [err.Error()]: the format strings of the source. *)
Fixpoint Error (e : error) : string :=
  match e with
  | ErrExternal msg => msg
  | ErrAIResponse i c =>
      "failed to get AI response (iteration " +:+ pretty i +:+ "): " +:+ Error c
  | ErrNoChoices i =>
      "no response choices returned (iteration " +:+ pretty i +:+ ")"
  | ErrExecuteTool n i c =>
      "failed to execute tool " +:+ n +:+ " (iteration " +:+ pretty i +:+ "): "
        +:+ Error c
  | ErrParseArguments c => "failed to parse tool arguments: " +:+ Error c
  | ErrNoServer n => "no server found for tool: " +:+ n
  | ErrCallTool n c => "failed to call tool " +:+ n +:+ ": " +:+ Error c
  | ErrMarshalResult c => "failed to marshal tool result: " +:+ Error c
  | ErrServerNotFound s => "MCP server " +:+ s +:+ " not found"
  | ErrListTools c => "failed to list tools: " +:+ Error c
  | ErrMarshalRequest c => "failed to marshal request: " +:+ Error c
  | ErrCreateChatCompletion c => "failed to create chat completion: " +:+ Error c
  | ErrReadBody c => "failed to read response body: " +:+ Error c
  | ErrAPIStatus st b =>
      "API request failed with status " +:+ pretty st +:+ ": " +:+ b
  | ErrAPI m => "API error: " +:+ m
  | ErrUnmarshalResponse c => "failed to unmarshal response: " +:+ Error c
  end.

(** A Go [(value, error)] pair of which exactly one side is meaningful. *)
Inductive result (A : Type) :=
  | Ok (a : A)
  | Err (e : error).
Arguments Ok {A} a.
Arguments Err {A} e.

Definition is_Ok {A} (r : result A) : bool :=
  match r with Ok _ => true | Err _ => false end.

(** ** Wire types of package blaxel (client.go) *)

Record ToolCallFunction := {
  ToolCallFunction_Name : string;
  ToolCallFunction_Arguments : string;
}.

Record ToolCall := {
  ToolCall_Id : string;
  ToolCall_Type : string;
  ToolCall_Function : ToolCallFunction;
}.

Record ChatMessage := {
  Role : string;
  Content : string;
  ToolCalls : list ToolCall;
  ToolCallId : string;
}.

Record Function := {
  Function_Name : string;
  Function_Description : string;
  Function_Parameters : option (gmap string json);
}.

Record Tool := {
  Tool_Type : string;
  Tool_Function : Function;
}.

(** The request fields [Agent.Run] sets, and [Model] and [Stream], which
    it leaves at their zero values. The pointer fields Temperature,
    MaxTokens and TopP and the ToolChoice interface are nil in every
    request the agent builds and are left out. *)
Record ChatCompletionRequest := {
  Request_Model : string;
  Messages : list ChatMessage;
  Stream : bool;
  Tools : list Tool;
}.

Record Choice := {
  Index : Z;
  Message : ChatMessage;
  FinishReason : string;
}.

Record UsageInfo := {
  PromptTokens : Z;
  CompletionTokens : Z;
  TotalTokens : Z;
}.

Record ChatCompletionResponse := {
  ID : string;
  Object : string;
  Created : Z;
  Model : string;
  Choices : list Choice;
  Usage : UsageInfo;
}.

(** ** What the repository imports

    [Schema] is the dynamic type behind [mcp.Tool.InputSchema],
    [ToolContent] the type of [mcp.CallToolResult.Content], [MCPClient]
    a live [*blaxelMCP.MCPClient], [Ctx] a [context.Context]. *)

(** mcp.Tool, the fields the repository reads. The pointers to it that
    the MCP SDK hands out are taken to be non-nil. *)
Record McpTool (Schema : Type) := {
  McpTool_Name : string;
  McpTool_Description : string;
  McpTool_InputSchema : Schema;
}.
Arguments McpTool_Name {Schema} _.
Arguments McpTool_Description {Schema} _.
Arguments McpTool_InputSchema {Schema} _.

Record CallToolResult (ToolContent : Type) := {
  CallToolResult_Content : ToolContent;
}.
Arguments CallToolResult_Content {ToolContent} _.

(** An [*http.Response] as [CreateChatCompletion] consumes it: the status
    code and what [io.ReadAll(resp.Body)] yields. *)
Record HttpResponse := {
  StatusCode : Z;
  Body : result string;
}.

Class Externals := {
  World : Type;
  Ctx : Type;
  MCPClient : Type;
  Schema : Type;
  ToolContent : Type;
  (** encoding/json: the encoders may fail; the decoders say whether the
      text parses, and to what *)
  json_Marshal_request : ChatCompletionRequest → result string;
  json_Marshal_schema : Schema → result string;
  json_Marshal_content : ToolContent → result string;
  json_Unmarshal : string → result json;
  json_Unmarshal_map : string → result (option (gmap string json));
  json_Unmarshal_response : string → result ChatCompletionResponse;
  json_Unmarshal_error_message : string → result string;
  (** sdk.ClientWithResponses.Run for POST /v1/chat/completions, given
      the client's workspace, model and debug flag and the request body *)
  BlaxelClient_Run : World → string → string → bool → string → World * result HttpResponse;
  (** the two MCP client calls *)
  MCPClient_ListTools : World → Ctx → MCPClient → World * result (list (McpTool Schema));
  MCPClient_CallTool : World → Ctx → MCPClient → string → json → World * result (CallToolResult ToolContent);
  (** time.Now().Unix() *)
  time_Now_Unix : World → World * Z;
  (** the order in which [range] visits a map: some enumeration of it *)
  range_servers : World → gmap string MCPClient → World * list (string * MCPClient);
  range_servers_perm : ∀ w m, (range_servers w m).2 ≡ₚ map_to_list m;
}.

(** ** The external calls a function makes, in order *)
Inductive Event `{Externals} :=
  | EvModel (iteration : Z) (req : ChatCompletionRequest)
      (res : result ChatCompletionResponse)
  | EvTool (call : ToolCall) (res : result string)
  | EvListTools (serverName : string) (res : result (list (McpTool Schema))).

Section blaxel.
Context `{!Externals}.

(** *** mcp_manager.go *)

Record MCPManager := {
  servers : gmap string MCPClient;
  headers : gmap string string;
}.

Record ToolWithServer := {
  ToolWithServer_Tool : McpTool Schema;
  ServerName : string;
}.

(** The body of the [range m.servers] loop of [ListAllTools], over the
    enumeration the runtime chose. *)
Fixpoint ListAllTools_range (ctx : Ctx) (order : list (string * MCPClient))
    (w : World) (allTools : list ToolWithServer)
    : World * list ToolWithServer * list Event :=
  match order with
  | [] => (w, allTools, [])
  | (serverName, client) :: order' =>
      let '(w1, r) := MCPClient_ListTools w ctx client in
      match r with
      | Err err =>
          (* logger.Warningf(...); continue *)
          let '(w2, all2, evs) := ListAllTools_range ctx order' w1 allTools in
          (w2, all2, EvListTools serverName r :: evs)
      | Ok tools =>
          let allTools1 :=
            allTools ++
              map (λ tool, {| ToolWithServer_Tool := tool;
                              ServerName := serverName |}) tools in
          let '(w2, all2, evs) := ListAllTools_range ctx order' w1 allTools1 in
          (w2, all2, EvListTools serverName r :: evs)
      end
  end.

(** [ListAllTools]: the Go results are the slice and the error. *)
Definition ListAllTools (m : MCPManager) (ctx : Ctx) (w : World)
    : World * (list ToolWithServer * option error) * list Event :=
  let '(w0, order) := range_servers w (servers m) in
  let '(w1, allTools, evs) := ListAllTools_range ctx order w0 [] in
  (w1, (allTools, None), evs).

Definition CallTool (m : MCPManager) (ctx : Ctx) (w : World)
    (serverName toolName : string) (params : json)
    : World * result (CallToolResult ToolContent) :=
  match servers m !! serverName with
  | None => (w, Err (ErrServerNotFound serverName))
  | Some client => MCPClient_CallTool w ctx client toolName params
  end.

Definition GetServerNames (m : MCPManager) (w : World) : World * list string :=
  let '(w0, order) := range_servers w (servers m) in (w0, order.*1).

Definition GetServerCount (m : MCPManager) : Z := Z.of_nat (size (servers m)).

(** *** client.go *)

Record Client := {
  Workspace : string;
  Client_Model : string;
  Debug : bool;
  McpManager : MCPManager;
}.

Definition StatusOK : Z := 200.

Definition CreateChatCompletion (c : Client) (w : World)
    (req : ChatCompletionRequest) : World * result ChatCompletionResponse :=
  match json_Marshal_request req with
  | Err err => (w, Err (ErrMarshalRequest err))
  | Ok jsonData =>
      let '(w1, r) := BlaxelClient_Run w (Workspace c) (Client_Model c) (Debug c) jsonData in
      match r with
      | Err err => (w1, Err (ErrCreateChatCompletion err))
      | Ok resp =>
          match Body resp with
          | Err err => (w1, Err (ErrReadBody err))
          | Ok body =>
              if bool_decide (StatusCode resp ≠ StatusOK) then
                match json_Unmarshal_error_message body with
                | Err _ => (w1, Err (ErrAPIStatus (StatusCode resp) body))
                | Ok message => (w1, Err (ErrAPI message))
                end
              else
                match json_Unmarshal_response body with
                | Err err => (w1, Err (ErrUnmarshalResponse err))
                | Ok chatResp => (w1, Ok chatResp)
                end
          end
      end
  end.

End blaxel.

Section agent.
Context `{!Externals}.

(** *** The tool manager (package agent) *)

Record ToolManager := {
  toolServerMap : gmap string string;
}.

Definition NewToolManager : ToolManager := {| toolServerMap := ∅ |}.

(** The schema every unserialisable input schema is replaced by:
    [{"type": "object", "properties": {}}]. *)
Definition emptyObjectSchema : option (gmap string json) :=
  Some (<["type" := JString "object"]> (<["properties" := JObject ∅]> ∅)).

Definition convertParameters (inputSchema : Schema) : option (gmap string json) :=
  match json_Marshal_schema inputSchema with
  | Err _ => emptyObjectSchema
  | Ok jsonBytes =>
      match json_Unmarshal_map jsonBytes with
      | Err _ => emptyObjectSchema
      | Ok result => result
      end
  end.

(** The [range mcpToolsWithServer] loop: the map and the slice it grows. *)
Fixpoint ConvertMCPToolsToOpenAI_range (mcpToolsWithServer : list ToolWithServer)
    (toolServerMap : gmap string string) (openAITools : list Tool)
    : gmap string string * list Tool :=
  match mcpToolsWithServer with
  | [] => (toolServerMap, openAITools)
  | toolWithServer :: rest =>
      let mcpTool := ToolWithServer_Tool toolWithServer in
      let serverName := ServerName toolWithServer in
      let toolServerMap1 := <[McpTool_Name mcpTool := serverName]> toolServerMap in
      let description := McpTool_Description mcpTool in
      let openAITool :=
        {| Tool_Type := "function";
           Tool_Function :=
             {| Function_Name := McpTool_Name mcpTool;
                Function_Description := description;
                Function_Parameters :=
                  convertParameters (McpTool_InputSchema mcpTool) |} |} in
      ConvertMCPToolsToOpenAI_range rest toolServerMap1 (openAITools ++ [openAITool])
  end.

(** [ConvertMCPToolsToOpenAI] has a pointer receiver: it returns the
    converted tools and leaves the manager updated. *)
Definition ConvertMCPToolsToOpenAI (tm : ToolManager)
    (mcpToolsWithServer : list ToolWithServer) : list Tool * ToolManager :=
  let '(m, openAITools) := ConvertMCPToolsToOpenAI_range mcpToolsWithServer ∅ [] in
  (openAITools, {| toolServerMap := m |}).

(** A lookup in a Go map yields the zero value and [false] for a
    missing key. *)
Definition GetServerForTool (tm : ToolManager) (toolName : string) : string * bool :=
  match toolServerMap tm !! toolName with
  | Some serverName => (serverName, true)
  | None => (EmptyString, false)
  end.

(** *** The agent (agent.go) *)

Record Agent := {
  name : string;
  model : string;
  tools : list Tool;
  blaxelClient : Client;
  systemPrompt : string;
  maxIterations : Z;
  toolManager : ToolManager;
}.

Record Config := {
  Config_Name : string;
  Config_Model : string;
  Config_SystemPrompt : string;
  Config_MaxIterations : Z;
}.

Definition defaultSystemPrompt : string :=
  "You are a helpful AI assistant. Use the available tools when needed to help answer user questions.".

Definition NewAgent (config : Config) (blaxelClient : Client) : Agent :=
  let maxIterations :=
    if bool_decide (Config_MaxIterations config ≤ 0) then 10
    else Config_MaxIterations config in
  let systemPrompt :=
    if bool_decide (Config_SystemPrompt config = EmptyString) then defaultSystemPrompt
    else Config_SystemPrompt config in
  {| name := Config_Name config;
     model := Config_Model config;
     blaxelClient := blaxelClient;
     systemPrompt := systemPrompt;
     maxIterations := maxIterations;
     tools := [];
     toolManager := NewToolManager |}.

Definition SetTools (a : Agent) (tools : list Tool) : Agent :=
  {| name := name a; model := model a; tools := tools;
     blaxelClient := blaxelClient a; systemPrompt := systemPrompt a;
     maxIterations := maxIterations a; toolManager := toolManager a |}.

Definition SetToolManager (a : Agent) (tm : ToolManager) : Agent :=
  {| name := name a; model := model a; tools := tools a;
     blaxelClient := blaxelClient a; systemPrompt := systemPrompt a;
     maxIterations := maxIterations a; toolManager := tm |}.

Definition SetSystemPrompt (a : Agent) (prompt : string) : Agent :=
  {| name := name a; model := model a; tools := tools a;
     blaxelClient := blaxelClient a; systemPrompt := prompt;
     maxIterations := maxIterations a; toolManager := toolManager a |}.

Definition SetMaxIterations (a : Agent) (max : Z) : Agent :=
  {| name := name a; model := model a; tools := tools a;
     blaxelClient := blaxelClient a; systemPrompt := systemPrompt a;
     maxIterations := max; toolManager := toolManager a |}.

Definition executeToolCall (a : Agent) (ctx : Ctx) (w : World) (toolCall : ToolCall)
    : World * result string :=
  let arguments := ToolCallFunction_Arguments (ToolCall_Function toolCall) in
  let toolName := ToolCallFunction_Name (ToolCall_Function toolCall) in
  (* var params interface{}; parsed only when the text is not empty *)
  let parsed :=
    if bool_decide (arguments ≠ EmptyString) then json_Unmarshal arguments else Ok JNull in
  match parsed with
  | Err err => (w, Err (ErrParseArguments err))
  | Ok params =>
      match GetServerForTool (toolManager a) toolName with
      | (_, false) => (w, Err (ErrNoServer toolName))
      | (serverName, true) =>
          let '(w1, r) :=
            CallTool (McpManager (blaxelClient a)) ctx w serverName toolName params in
          match r with
          | Err err => (w1, Err (ErrCallTool toolName err))
          | Ok toolResult =>
              match json_Marshal_content (CallToolResult_Content toolResult) with
              | Err err => (w1, Err (ErrMarshalResult err))
              | Ok content => (w1, Ok content)
              end
          end
      end
  end.

Definition createMaxIterationsResponse (a : Agent) (w : World)
    : World * ChatCompletionResponse :=
  let '(w1, t1) := time_Now_Unix w in
  let '(w2, t2) := time_Now_Unix w1 in
  (w2,
   {| ID := "agent-" +:+ name a +:+ "-" +:+ pretty t1;
      Object := "chat.completion";
      Created := t2;
      Model := model a;
      Choices :=
        [ {| Index := 0;
             Message :=
               {| Role := "assistant";
                  Content := "Maximum iterations reached. The agent may not have completed the task.";
                  ToolCalls := [];
                  ToolCallId := EmptyString |};
             FinishReason := "length" |} ];
      Usage := {| PromptTokens := 0; CompletionTokens := 0; TotalTokens := 0 |} |}).

(** The message appended for a tool call that succeeded. *)
Definition toolMessage (toolCall : ToolCall) (toolResult : string) : ChatMessage :=
  {| Role := "tool";
     Content := toolResult;
     ToolCalls := [];
     ToolCallId := ToolCall_Id toolCall |}.

(** What one execution of [Run] leaves behind: the world, the local
    [messages] slice as it stands when [Run] is left, the external calls
    made, and the Go results. [returned = None] only when the loop was
    cut short for lack of fuel. *)
Record Execution := {
  final_world : World;
  conversation : list ChatMessage;
  events : list Event;
  returned : option (result ChatCompletionResponse);
}.

(** The [range assistantMessage.ToolCalls] loop. The error, if any, is
    the one [Run] returns. *)
Fixpoint executeToolCalls (a : Agent) (ctx : Ctx) (iteration : Z)
    (toolCalls : list ToolCall) (w : World) (messages : list ChatMessage)
    : World * list ChatMessage * list Event * option error :=
  match toolCalls with
  | [] => (w, messages, [], None)
  | toolCall :: rest =>
      let '(w1, r) := executeToolCall a ctx w toolCall in
      match r with
      | Err err =>
          (w1, messages, [EvTool toolCall r],
           Some (ErrExecuteTool (ToolCallFunction_Name (ToolCall_Function toolCall))
                   iteration err))
      | Ok toolResult =>
          let '(w2, messages2, evs, e) :=
            executeToolCalls a ctx iteration rest w1
              (messages ++ [toolMessage toolCall toolResult]) in
          (w2, messages2, EvTool toolCall r :: evs, e)
      end
  end.

(** The [for iteration := 1; iteration <= a.maxIterations; iteration++]
    loop, from the test of an iteration on. [fuel] bounds the number of
    iterations; [Run] supplies enough of it.

    The counter is incremented in [Z]. An iteration that is followed by
    another one has appended at least two messages, so the counter never
    exceeds half the length of the conversation ([Run_counter_bounded]):
    a wrap-around of the machine integer would need a slice longer than
    any Go slice can be.

    The progress lines [Run] prints to standard output are not part of
    the embedding. *)
Fixpoint Run_loop (fuel : nat) (a : Agent) (ctx : Ctx) (iteration : Z)
    (w : World) (messages : list ChatMessage) : Execution :=
  if bool_decide (iteration ≤ maxIterations a) then
    match fuel with
    | O => {| final_world := w; conversation := messages; events := [];
              returned := None |}
    | S fuel' =>
        let req :=
          {| Request_Model := EmptyString; Messages := messages; Stream := false;
             Tools := tools a |} in
        let '(w1, r) := CreateChatCompletion (blaxelClient a) w req in
        match r with
        | Err err =>
            {| final_world := w1; conversation := messages;
               events := [EvModel iteration req r];
               returned := Some (Err (ErrAIResponse iteration err)) |}
        | Ok resp =>
            match Choices resp with
            | [] =>
                {| final_world := w1; conversation := messages;
                   events := [EvModel iteration req r];
                   returned := Some (Err (ErrNoChoices iteration)) |}
            | choice :: _ =>
                let assistantMessage := Message choice in
                let messages1 := messages ++ [assistantMessage] in
                match ToolCalls assistantMessage with
                | _ :: _ =>
                    let '(w2, messages2, evs, e) :=
                      executeToolCalls a ctx iteration
                        (ToolCalls assistantMessage) w1 messages1 in
                    match e with
                    | Some err =>
                        {| final_world := w2; conversation := messages2;
                           events := EvModel iteration req r :: evs;
                           returned := Some (Err err) |}
                    | None =>
                        let x := Run_loop fuel' a ctx (iteration + 1) w2 messages2 in
                        {| final_world := final_world x;
                           conversation := conversation x;
                           events := (EvModel iteration req r :: evs) ++ events x;
                           returned := returned x |}
                    end
                | [] =>
                    {| final_world := w1; conversation := messages1;
                       events := [EvModel iteration req r];
                       returned := Some (Ok resp) |}
                end
            end
        end
    end
  else
    let '(w1, resp) := createMaxIterationsResponse a w in
    {| final_world := w1; conversation := messages; events := [];
       returned := Some (Ok resp) |}.

Definition initialMessages (a : Agent) (userInput : string) : list ChatMessage :=
  [ {| Role := "system"; Content := systemPrompt a; ToolCalls := []; ToolCallId := EmptyString |};
    {| Role := "user"; Content := userInput; ToolCalls := []; ToolCallId := EmptyString |} ].

(** [Agent.Run]. The loop is entered with as much fuel as it can have
    iterations. *)
Definition Run (a : Agent) (ctx : Ctx) (userInput : string) (w : World) : Execution :=
  Run_loop (Z.to_nat (maxIterations a)) a ctx 1 w (initialMessages a userInput).

End agent.

Section router.
Context `{!Externals}.

(** *** Tool listing handlers (package router)

    What a handler does with the gin context: it either writes a JSON
    body with a status, or records an error with [c.Error] and returns,
    which the error middleware answers with status 500 and the error's
    message. *)
Inductive ginH :=
  | H_tools (tools : list ToolWithServer) (total_count : Z)
  | H_server_tools (server : string) (tools : list (McpTool Schema)) (count : Z)
  | H_server_not_found (error_text : string) (server : string).

Inductive Handled :=
  | JSON (status : Z) (body : ginH)
  | RecordedError (e : error).

Definition StatusNotFound : Z := 404.

Definition listTools (blaxelClient : Client) (c : Ctx) (w : World) : World * Handled :=
  let '(w1, (tools, err), _) := ListAllTools (McpManager blaxelClient) c w in
  match err with
  | Some err => (w1, RecordedError (ErrListTools err))
  | None =>
      (w1, JSON StatusOK (H_tools tools (Z.of_nat (length tools))))
  end.

Definition listServerTools (blaxelClient : Client) (c : Ctx) (serverName : string)
    (w : World) : World * Handled :=
  let '(w1, (allTools, err), _) := ListAllTools (McpManager blaxelClient) c w in
  match err with
  | Some err => (w1, RecordedError (ErrListTools err))
  | None =>
      let serverTools :=
        ToolWithServer_Tool <$>
          filter (λ toolWithServer, ServerName toolWithServer = serverName) allTools in
      if bool_decide (length serverTools = 0%nat) then
        (w1, JSON StatusNotFound
               (H_server_not_found "server not found or has no tools" serverName))
      else
        (w1, JSON StatusOK
               (H_server_tools serverName serverTools (Z.of_nat (length serverTools))))
  end.

End router.

(** * Vocabulary of the statements *)

Section vocabulary.
Context `{!Externals}.

Definition toolName (e : ToolWithServer) : string :=
  McpTool_Name (ToolWithServer_Tool e).

(** The tool the conversion makes of one catalog entry. *)
Definition convertedTool (e : ToolWithServer) : Tool :=
  {| Tool_Type := "function";
     Tool_Function :=
       {| Function_Name := McpTool_Name (ToolWithServer_Tool e);
          Function_Description := McpTool_Description (ToolWithServer_Tool e);
          Function_Parameters :=
            convertParameters (McpTool_InputSchema (ToolWithServer_Tool e)) |} |}.

(** Counting external calls. *)
Definition isModelCall (ev : Event) : bool :=
  match ev with EvModel _ _ _ => true | _ => false end.

Definition isToolCall (ev : Event) : bool :=
  match ev with EvTool _ _ => true | _ => false end.

Definition modelCallCount (evs : list Event) : nat := length (filter isModelCall evs).
Definition toolCallCount (evs : list Event) : nat := length (filter isToolCall evs).

(** The model answered this call with a first choice that asks for at
    least one tool. Events that are not model calls pass. *)
Definition requestsTools (ev : Event) : bool :=
  match ev with
  | EvModel _ _ (Ok resp) =>
      match Choices resp with
      | choice :: _ => negb (bool_decide (ToolCalls (Message choice) = []))
      | [] => false
      end
  | EvModel _ _ (Err _) => false
  | _ => true
  end.

(** The tool call of this event, if it is one, succeeded. *)
Definition toolSucceeded (ev : Event) : bool :=
  match ev with
  | EvTool _ r => is_Ok r
  | _ => true
  end.

(** The entries a listing call contributes to the catalog. *)
Definition listed (ev : Event) : list ToolWithServer :=
  match ev with
  | EvListTools serverName (Ok tools) =>
      map (λ tool, {| ToolWithServer_Tool := tool; ServerName := serverName |}) tools
  | _ => []
  end.

Definition listedServer (ev : Event) : option string :=
  match ev with
  | EvListTools serverName _ => Some serverName
  | _ => None
  end.

(** A message answers a tool call: it is a tool message carrying the
    call's id. *)
Definition answers (toolCall : ToolCall) (m : ChatMessage) : Prop :=
  Role m = "tool" ∧ ToolCallId m = ToolCall_Id toolCall.







(** The listing calls [ListAllTools] makes when the runtime enumerates
    the servers in the given order: for each server its name, its
    client, and the world in which the client is asked. *)
Fixpoint listingCalls (ctx : Ctx) (order : list (string * MCPClient)) (w : World)
    : list (string * MCPClient * World) :=
  match order with
  | [] => []
  | (serverName, client) :: order' =>
      (serverName, client, w)
        :: listingCalls ctx order' (MCPClient_ListTools w ctx client).1
  end.

(** What the backend answers to a listing call, and the catalog entries
    that answer amounts to. *)
Definition callResult (ctx : Ctx) (call : string * MCPClient * World)
    : result (list (McpTool Schema)) :=
  (MCPClient_ListTools call.2 ctx call.1.2).2.

Definition calledTools (ctx : Ctx) (call : string * MCPClient * World)
    : list ToolWithServer :=
  match callResult ctx call with
  | Ok tools =>
      map (λ tool, {| ToolWithServer_Tool := tool; ServerName := call.1.1 |}) tools
  | Err _ => []
  end.


(** A tool call whose argument text is not empty and does not parse. *)
Definition malformedArguments (toolCall : ToolCall) : Prop :=
  ToolCallFunction_Arguments (ToolCall_Function toolCall) ≠ EmptyString
  ∧ ∃ err, json_Unmarshal (ToolCallFunction_Arguments (ToolCall_Function toolCall))
           = Err err.

End vocabulary.

(** * A scripted world

    A small instance of [Externals] on which the functions above can be
    run: the [n]-th call of the model endpoint returns the body
    [script n], bodies and argument texts are decoded from a fixed
    table, one MCP backend works and one is down. *)

Definition toolCallWith (arguments : string) : ToolCall :=
  {| ToolCall_Id := "call_1"; ToolCall_Type := "function";
     ToolCall_Function :=
       {| ToolCallFunction_Name := "search";
          ToolCallFunction_Arguments := arguments |} |}.

Definition scriptedResponse (content : string) (calls : list ToolCall)
    : ChatCompletionResponse :=
  {| ID := "chatcmpl-1"; Object := "chat.completion"; Created := 1700000000;
     Model := "gpt-4o-mini";
     Choices :=
       [ {| Index := 0;
            Message := {| Role := "assistant"; Content := content;
                          ToolCalls := calls; ToolCallId := EmptyString |};
            FinishReason := if bool_decide (calls = []) then "stop" else "tool_calls" |} ];
     Usage := {| PromptTokens := 12; CompletionTokens := 3; TotalTokens := 15 |} |}.

Definition decodeBody (body : string) : result ChatCompletionResponse :=
  if bool_decide (body = "answer") then Ok (scriptedResponse "4" [])
  else if bool_decide (body = "tool") then
    Ok (scriptedResponse EmptyString [toolCallWith "{}"])
  else if bool_decide (body = "tool-noargs") then
    Ok (scriptedResponse EmptyString [toolCallWith EmptyString])
  else if bool_decide (body = "tool-badargs") then
    Ok (scriptedResponse EmptyString [toolCallWith "{"])
  else if bool_decide (body = "two-tools-bad-second") then
    Ok (scriptedResponse EmptyString [toolCallWith "{}"; toolCallWith "{"])
  else Err (ErrExternal "unexpected end of JSON input").

Definition decodeArguments (text : string) : result json :=
  if bool_decide (text = "{}") then Ok (JObject ∅)
  else if bool_decide (text = "null") then Ok JNull
  else Err (ErrExternal "unexpected end of JSON input").

Definition decodeMap (text : string) : result (option (gmap string json)) :=
  if bool_decide (text = "{}") then Ok (Some ∅)
  else if bool_decide (text = "null") then Ok None
  else Err (ErrExternal "json: cannot unmarshal into Go value of type map[string]interface {}").

(** Schemas are their own JSON text, except that ["chan"] stands for a
    value [json.Marshal] rejects. *)
Definition encodeSchema (schema : string) : result string :=
  if bool_decide (schema = "chan") then
    Err (ErrExternal "json: unsupported type: chan int")
  else Ok schema.

Definition scriptedTool (toolName0 schema : string) : McpTool string :=
  {| McpTool_Name := toolName0; McpTool_Description := "about " +:+ toolName0;
     McpTool_InputSchema := schema |}.

(** Backend 0 lists one tool and executes calls; every other backend is
    down. *)
Definition scriptedListTools (client : nat) : result (list (McpTool string)) :=
  match client with
  | O => Ok [scriptedTool "search" "{}"]
  | S _ => Err (ErrExternal "connection refused")
  end.

Definition scriptedCallTool (client : nat) : result (CallToolResult string) :=
  match client with
  | O => Ok {| CallToolResult_Content := "[]" |}
  | S _ => Err (ErrExternal "connection refused")
  end.

(** The world is the number of requests the model endpoint has served. *)
Definition scriptedWorld (script : nat → string) : Externals :=
  {| World := nat;
     Ctx := unit;
     MCPClient := nat;
     Schema := string;
     ToolContent := string;
     json_Marshal_request := λ _, Ok "{...}";
     json_Marshal_schema := encodeSchema;
     json_Marshal_content := Ok;
     json_Unmarshal := decodeArguments;
     json_Unmarshal_map := decodeMap;
     json_Unmarshal_response := decodeBody;
     json_Unmarshal_error_message := λ _, Ok "rate limited";
     BlaxelClient_Run := λ w _ _ _ _,
       (S w, Ok {| StatusCode := 200; Body := Ok (script w) |});
     MCPClient_ListTools := λ w _ client, (w, scriptedListTools client);
     MCPClient_CallTool := λ w _ client _ _, (w, scriptedCallTool client);
     time_Now_Unix := λ w, (w, 1700000000);
     range_servers := λ w m, (w, map_to_list m);
     range_servers_perm := λ _ m, Permutation_refl (map_to_list m) |}.

(** An agent over the scripted world: backend ["alpha"] is client 0,
    backend ["beta"] is client 1, and the tool ["search"] is routed to
    ["alpha"]. *)
Definition scriptedClient (script : nat → string)
    : @Client (scriptedWorld script) :=
  {| Workspace := "ws"; Client_Model := "sandbox-openai"; Debug := false;
     McpManager :=
       {| servers := <["alpha" := 0%nat]> (<["beta" := 1%nat]> ∅);
          headers := ∅ |} |}.

Definition scriptedAgent (script : nat → string) (maxIterations : Z)
    : @Agent (scriptedWorld script) :=
  {| name := "demo-agent"; model := "gpt-4o-mini"; tools := [];
     blaxelClient := scriptedClient script;
     systemPrompt := "You are helpful.";
     maxIterations := maxIterations;
     toolManager := {| toolServerMap := <["search" := "alpha"]> ∅ |} |}.

(** Scripts for the model endpoint. *)
Definition alwaysAnswer : nat → string := λ _, "answer".
Definition alwaysTool : nat → string := λ _, "tool".
Definition toolThenAnswer : nat → string :=
  λ n, match n with O => "tool" | S _ => "answer" end.
Definition badSecondCall : nat → string := λ _, "two-tools-bad-second".

Definition scriptedEntry (toolName0 schema serverName : string)
    : @ToolWithServer (scriptedWorld alwaysAnswer) :=
  @Build_ToolWithServer (scriptedWorld alwaysAnswer)
    (scriptedTool toolName0 schema) serverName.

Definition firstRequest {E : Externals} (a : Agent) (userInput : string)
    : ChatCompletionRequest :=
  {| Request_Model := EmptyString; Messages := initialMessages a userInput;
     Stream := false; Tools := tools a |}.

(** * Further functions of the repository

    The rest of mcp_manager.go and client.go, the agent and health
    handlers of package router, and the level and formatting logic of
    package logger. *)

(** Errors made by the [fmt.Errorf] sites of these functions;
    [Unwrapped] is an error of the functions above passed on as it is. *)
Inductive wrappedError :=
  | Unwrapped (e : error)
  | ErrCreateMCPClient (name : string) (cause : error)
  | ErrNoChoicesReturned
  | ErrInvalidRequest (cause : error)
  | ErrGetTools (cause : error)
  | ErrAgentExecution (cause : error).

Definition wrappedError_Error (e : wrappedError) : string :=
  match e with
  | Unwrapped e => Error e
  | ErrCreateMCPClient n c =>
      "failed to create MCP client for " +:+ n +:+ ": " +:+ Error c
  | ErrNoChoicesReturned => "no choices returned in response"
  | ErrInvalidRequest c => "invalid request: " +:+ Error c
  | ErrGetTools c => "failed to get tools: " +:+ Error c
  | ErrAgentExecution c => "agent execution failed: " +:+ Error c
  end.

(** What these functions import beyond [Externals]: opening and closing
    an MCP client, the pieces [for _, char := range s] visits, each
    converted back with [string(char)], and [strings.ToUpper]. *)
Class Runtime `{Externals} := {
  NewMCPClient : World → string → gmap string string → World * result MCPClient;
  MCPClient_Close : World → MCPClient → World * option error;
  range_runes : string → list string;
  strings_ToUpper : string → string;
}.

Section blaxel_more.
Context `{!Externals, !Runtime}.

(** *** mcp_manager.go, continued *)

Record MCPServerConfig := {
  MCPServerConfig_Name : string;
  MCPServerConfig_URL : string;
}.

Definition NewMCPManager (headers : gmap string string) : MCPManager :=
  {| servers := ∅; headers := headers |}.

(** [AddServer] has a pointer receiver: it returns the error and leaves
    the manager updated. *)
Definition AddServer (m : MCPManager) (config : MCPServerConfig) (w : World)
    : World * MCPManager * option wrappedError :=
  let '(w1, r) := NewMCPClient w (MCPServerConfig_URL config) (headers m) in
  match r with
  | Err err =>
      (w1, m, Some (ErrCreateMCPClient (MCPServerConfig_Name config) err))
  | Ok client =>
      (w1,
       {| servers := <[MCPServerConfig_Name config := client]> (servers m);
          headers := headers m |},
       None)
  end.

(** The [range m.servers] loop of [Close]; the third component lists the
    close calls made, with what each returned. *)
Fixpoint Close_range (order : list (string * MCPClient)) (w : World)
    (lastErr : option error) : World * option error * list (string * option error) :=
  match order with
  | [] => (w, lastErr, [])
  | (name, client) :: order' =>
      let '(w1, err) := MCPClient_Close w client in
      let lastErr1 := match err with Some e => Some e | None => lastErr end in
      let '(w2, r, closed) := Close_range order' w1 lastErr1 in
      (w2, r, (name, err) :: closed)
  end.

Definition Close (m : MCPManager) (w : World)
    : World * option error * list (string * option error) :=
  let '(w0, order) := range_servers w (servers m) in
  Close_range order w0 None.

(** The [range serverNames] loop of [getMCPServersConfig]. *)
Fixpoint getMCPServersConfig_range (runUrl workspace : string)
    (serverNames : list string) (servers : list MCPServerConfig)
    : list MCPServerConfig :=
  match serverNames with
  | [] => servers
  | serverName :: rest =>
      getMCPServersConfig_range runUrl workspace rest
        (servers ++
           [ {| MCPServerConfig_Name := serverName;
                MCPServerConfig_URL :=
                  runUrl +:+ "/" +:+ workspace +:+ "/functions/" +:+ serverName |} ])
  end.

Definition getMCPServersConfig (runUrl workspace : string)
    (serverNames : list string) : list MCPServerConfig :=
  getMCPServersConfig_range runUrl workspace serverNames [].

(** *** client.go, continued *)

(** The [range mcpServers] loop of [NewClient]: a server that cannot be
    added is logged and skipped. The third component is what the loop
    and [AddServer] log: for each configuration its name, and the error
    if it could not be added. *)
Fixpoint NewClient_addServers (mcpServers : list MCPServerConfig)
    (mcpManager : MCPManager) (w : World)
    : World * MCPManager * list (string * option wrappedError) :=
  match mcpServers with
  | [] => (w, mcpManager, [])
  | serverConfig :: rest =>
      let '(w1, mcpManager1, err) := AddServer mcpManager serverConfig w in
      let '(w2, mcpManager2, logged) := NewClient_addServers rest mcpManager1 w1 in
      (w2, mcpManager2, (MCPServerConfig_Name serverConfig, err) :: logged)
  end.

(** [CreateSimpleCompletion] returns the text, or the error on the
    left. *)
Definition CreateSimpleCompletion (c : Client) (w : World) (prompt : string)
    : World * (wrappedError + string) :=
  let req :=
    {| Request_Model := EmptyString;
       Messages := [ {| Role := "user"; Content := prompt; ToolCalls := [];
                        ToolCallId := EmptyString |} ];
       Stream := false;
       Tools := [] |} in
  let '(w1, r) := CreateChatCompletion c w req in
  match r with
  | Err err => (w1, inl (Unwrapped err))
  | Ok resp =>
      match Choices resp with
      | [] => (w1, inl ErrNoChoicesReturned)
      | choice :: _ => (w1, inr (Content (Message choice)))
      end
  end.

End blaxel_more.

Section router_more.
Context `{!Externals, !Runtime}.

(** *** Health and server handlers (health.go, the tools routes) *)

Inductive ginH_health :=
  | H_healthy (status service version : string)
  | H_alive (status : string)
  | H_not_ready (status reason : string)
  | H_ready (status : string) (mcp_servers : Z)
  | H_servers (servers : list string) (count : Z).

Definition StatusServiceUnavailable : Z := 503.
Definition StatusBadRequest : Z := 400.
Definition StatusInternalServerError : Z := 500.

Definition healthCheck : Z * ginH_health :=
  (StatusOK, H_healthy "healthy" "template-custom-agent-go" "1.0.0").

Definition livenessCheck : Z * ginH_health := (StatusOK, H_alive "alive").

Definition readinessCheck (blaxelClient : Client) : Z * ginH_health :=
  let serverCount := GetServerCount (McpManager blaxelClient) in
  if bool_decide (serverCount = 0) then
    (StatusServiceUnavailable, H_not_ready "not ready" "no MCP servers available")
  else (StatusOK, H_ready "ready" serverCount).

Definition listMCPServers (blaxelClient : Client) (w : World)
    : World * (Z * ginH_health) :=
  let '(w1, serverNames) := GetServerNames (McpManager blaxelClient) w in
  let serverCount := GetServerCount (McpManager blaxelClient) in
  (w1, (StatusOK, H_servers serverNames serverCount)).

(** *** Agent handlers *)

(** The request body as [c.ShouldBindJSON] fills it. *)
Record AgentRequest := {
  Inputs : string;
  AgentRequest_MaxIterations : Z;
  AgentRequest_Model : string;
  AgentRequest_SystemPrompt : string;
}.

Definition handlerSystemPrompt : string :=
  "You are a helpful assistant that can answer questions and help with tasks.".

Definition handlerModel : string := "gpt-4o-mini".

(** The agent both handlers build before they run it: defaults, the
    current catalog, its conversion, and the two setters. The Go code is
    the same in [runAgent] and [streamAgent] but for the agent's name. *)
Definition configureAgent (agentName : string) (blaxelClient : Client) (c : Ctx)
    (request : AgentRequest) (w : World)
    : World * (Agent + error) * list Event :=
  let model :=
    if bool_decide (AgentRequest_Model request = EmptyString) then handlerModel
    else AgentRequest_Model request in
  let systemPrompt :=
    if bool_decide (AgentRequest_SystemPrompt request = EmptyString)
    then handlerSystemPrompt else AgentRequest_SystemPrompt request in
  let agentConfig :=
    {| Config_Name := agentName;
       Config_MaxIterations := AgentRequest_MaxIterations request;
       Config_Model := model;
       Config_SystemPrompt := systemPrompt |} in
  let demoAgent := NewAgent agentConfig blaxelClient in
  let '(w1, (mcpTools, err), evs) := ListAllTools (McpManager blaxelClient) c w in
  match err with
  | Some err => (w1, inr err, evs)
  | None =>
      let '(tools, toolManager) := ConvertMCPToolsToOpenAI NewToolManager mcpTools in
      let demoAgent1 := SetTools demoAgent tools in
      let demoAgent2 := SetToolManager demoAgent1 toolManager in
      (w1, inl demoAgent2, evs)
  end.

(** What an agent handler does with the gin context. [Unfinished]
    stands for a run cut short for lack of fuel; no handler ends there
    ([runAgent_finishes]). *)
Inductive AgentHandled :=
  | RespondedJSON (status : Z) (response : ChatCompletionResponse)
  | AbortedWithStatus (e : wrappedError) (status : Z)
  | RespondedString (status : Z) (text : string)
  | Streamed (pieces : list string)
  | Unfinished.

Definition runAgent (blaxelClient : Client) (c : Ctx) (bound : result AgentRequest)
    (w : World) : World * AgentHandled * list Event :=
  match bound with
  | Err err => (w, AbortedWithStatus (ErrInvalidRequest err) StatusBadRequest, [])
  | Ok request =>
      let '(w1, configured, evs) :=
        configureAgent "demo-agent" blaxelClient c request w in
      match configured with
      | inr err =>
          (w1, AbortedWithStatus (ErrGetTools err) StatusInternalServerError, evs)
      | inl demoAgent =>
          let x := Run demoAgent c (Inputs request) w1 in
          match returned x with
          | Some (Err err) =>
              (final_world x,
               AbortedWithStatus (ErrAgentExecution err) StatusInternalServerError,
               evs ++ events x)
          | Some (Ok response) =>
              (final_world x, RespondedJSON StatusOK response, evs ++ events x)
          | None => (final_world x, Unfinished, evs ++ events x)
          end
      end
  end.

(** [streamAgent] sets its four response headers before it runs the
    agent; they accompany every outcome but the two aborts. *)
Definition streamAgent (blaxelClient : Client) (c : Ctx) (bound : result AgentRequest)
    (w : World) : World * AgentHandled * list Event :=
  match bound with
  | Err err => (w, AbortedWithStatus (ErrInvalidRequest err) StatusBadRequest, [])
  | Ok request =>
      let '(w1, configured, evs) :=
        configureAgent "streaming-agent" blaxelClient c request w in
      match configured with
      | inr err =>
          (w1, AbortedWithStatus (ErrGetTools err) StatusInternalServerError, evs)
      | inl demoAgent =>
          let x := Run demoAgent c (Inputs request) w1 in
          match returned x with
          | Some (Err err) =>
              (final_world x,
               RespondedString StatusInternalServerError ("Error: " +:+ Error err),
               evs ++ events x)
          | Some (Ok response) =>
              match Choices response with
              | choice :: _ =>
                  (final_world x, Streamed (range_runes (Content (Message choice))),
                   evs ++ events x)
              | [] =>
                  (final_world x,
                   RespondedString StatusInternalServerError "No response generated",
                   evs ++ events x)
              end
          | None => (final_world x, Unfinished, evs ++ events x)
          end
      end
  end.

End router_more.

Section logger.
Context `{!Externals, !Runtime}.

(** *** Package logger: levels and the colored formatter

    A [LogLevel] is a Go [int]; the six constants are 0 to 5. *)
Definition TRACE : Z := 0.
Definition DEBUG : Z := 1.
Definition INFO : Z := 2.
Definition WARNING : Z := 3.
Definition ERROR : Z := 4.
Definition FATAL : Z := 5.

Definition LogLevel_String (l : Z) : string :=
  if bool_decide (l = TRACE) then "TRACE"
  else if bool_decide (l = DEBUG) then "DEBUG"
  else if bool_decide (l = INFO) then "INFO"
  else if bool_decide (l = WARNING) then "WARNING"
  else if bool_decide (l = ERROR) then "ERROR"
  else if bool_decide (l = FATAL) then "FATAL"
  else "UNKNOWN".

(** The escape character, [\033]. *)
Definition ESC : string := String (Ascii.ascii_of_nat 27) EmptyString.

Record ColoredFormatter := {
  Colors : gmap string string;
}.

Definition NewColoredFormatter : ColoredFormatter :=
  {| Colors :=
       <["TRACE" := ESC +:+ "[1;35m"]>
       (<["DEBUG" := ESC +:+ "[1;36m"]>
       (<["INFO" := ESC +:+ "[1;32m"]>
       (<["WARNING" := ESC +:+ "[1;33m"]>
       (<["ERROR" := ESC +:+ "[1;31m"]>
       (<["FATAL" := ESC +:+ "[1;41m"]> ∅))))) |}.

(** [strings.Repeat] panics on a negative count. *)
Definition strings_Repeat (s : string) (count : Z) : option string :=
  if bool_decide (count < 0) then None
  else Some (String.concat EmptyString (replicate (Z.to_nat count) s)).

(** [ColoredFormatter.Format]; [None] is the panic of [strings.Repeat]. *)
Definition ColoredFormatter_Format (cf : ColoredFormatter) (level : Z)
    (message : string) : option string :=
  let levelStr := LogLevel_String level in
  let color0 := default EmptyString (Colors cf !! levelStr) in
  let color := if bool_decide (color0 = EmptyString) then ESC +:+ "[0m" else color0 in
  let maxLevelLen := 7 in
  match strings_Repeat " " (maxLevelLen - Z.of_nat (String.length levelStr)) with
  | None => None
  | Some spaces =>
      Some (color +:+ levelStr +:+ ESC +:+ "[0m:" +:+ spaces +:+ " " +:+ message)
  end.

(** [getLogLevelFromEnv], given the value of LOG_LEVEL. *)
Definition getLogLevelFromEnv (LOG_LEVEL : string) : Z :=
  let envLevel := strings_ToUpper LOG_LEVEL in
  if bool_decide (envLevel = "TRACE") then TRACE
  else if bool_decide (envLevel = "DEBUG") then DEBUG
  else if bool_decide (envLevel = "INFO") then INFO
  else if bool_decide (envLevel = "WARNING") then WARNING
  else if bool_decide (envLevel = "ERROR") then ERROR
  else if bool_decide (envLevel = "FATAL") then FATAL
  else DEBUG.

(** The logger, with its formatter as the function the interface value
    stands for. *)
Record Logger := {
  level : Z;
  formatter : Z → string → option string;
}.

Definition SetLevel (l : Logger) (level0 : Z) : Logger :=
  {| level := level0; formatter := formatter l |}.

Definition SetLevelFromString (l : Logger) (levelStr : string) : Logger :=
  let upper := strings_ToUpper levelStr in
  if bool_decide (upper = "TRACE") then SetLevel l TRACE
  else if bool_decide (upper = "DEBUG") then SetLevel l DEBUG
  else if bool_decide (upper = "INFO") then SetLevel l INFO
  else if bool_decide (upper = "WARNING") then SetLevel l WARNING
  else if bool_decide (upper = "ERROR") then SetLevel l ERROR
  else if bool_decide (upper = "FATAL") then SetLevel l FATAL
  else l.




End logger.

Section vocabulary_more.
Context `{!Externals}.

(** The tool calls a run executed, in order, and the ones the model
    asked for, in order. *)
Definition executedCall (ev : Event) : option ToolCall :=
  match ev with EvTool call _ => Some call | _ => None end.

Definition executedCalls (evs : list Event) : list ToolCall := omap executedCall evs.


(** The argument text of a call is empty or parses. *)
Definition wellFormedArguments (toolCall : ToolCall) : Prop :=
  ToolCallFunction_Arguments (ToolCall_Function toolCall) = EmptyString
  ∨ ∃ params,
      json_Unmarshal (ToolCallFunction_Arguments (ToolCall_Function toolCall))
      = Ok params.

End vocabulary_more.


(** The scripted world's side of [Runtime]: a client is the length of
    its URL, the URL ["down"] cannot be reached, client 0 closes cleanly
    and the others do not; strings are ASCII. *)
Definition asciiUpper (a : Ascii.ascii) : Ascii.ascii :=
  let n := Ascii.nat_of_ascii a in
  if bool_decide (97 ≤ n ≤ 122)%nat then Ascii.ascii_of_nat (n - 32) else a.

Fixpoint asciiToUpper (s : string) : string :=
  match s with
  | EmptyString => EmptyString
  | String a s' => String (asciiUpper a) (asciiToUpper s')
  end.

Fixpoint asciiRunes (s : string) : list string :=
  match s with
  | EmptyString => []
  | String a s' => String a EmptyString :: asciiRunes s'
  end.

Definition scriptedRuntime (script : nat → string) : @Runtime (scriptedWorld script) :=
  @Build_Runtime (scriptedWorld script)
    (λ w url _,
       if bool_decide (url = "down")
       then (w, Err (ErrExternal "dial tcp: connection refused"))
       else (w, Ok (String.length url)))
    (λ w client,
       (w, match client with
           | O => None
           | S _ => Some (ErrExternal "close: broken pipe")
           end))
    asciiRunes
    asciiToUpper.

(** A variant of the scripted world whose model endpoint answers every
    request with the given status and the body ["answer"], and in which
    a request without messages does not encode. *)
Definition upstreamWorld (status : Z) : Externals :=
  {| World := nat;
     Ctx := unit;
     MCPClient := nat;
     Schema := string;
     ToolContent := string;
     json_Marshal_request := λ req,
       if bool_decide (Messages req = [])
       then Err (ErrExternal "json: unsupported value")
       else Ok "{...}";
     json_Marshal_schema := encodeSchema;
     json_Marshal_content := Ok;
     json_Unmarshal := decodeArguments;
     json_Unmarshal_map := decodeMap;
     json_Unmarshal_response := decodeBody;
     json_Unmarshal_error_message := λ body,
       if bool_decide (body = "answer")
       then Err (ErrExternal "json: cannot unmarshal")
       else Ok "rate limited";
     BlaxelClient_Run := λ w _ _ _ _,
       (S w, Ok {| StatusCode := status; Body := Ok "answer" |});
     MCPClient_ListTools := λ w _ client, (w, scriptedListTools client);
     MCPClient_CallTool := λ w _ client _ _, (w, scriptedCallTool client);
     time_Now_Unix := λ w, (w, 1700000000);
     range_servers := λ w m, (w, map_to_list m);
     range_servers_perm := λ _ m, Permutation_refl (map_to_list m) |}.

Definition upstreamClient (status : Z) : @Client (upstreamWorld status) :=
  {| Workspace := "ws"; Client_Model := "sandbox-openai"; Debug := false;
     McpManager := {| servers := ∅; headers := ∅ |} |}.

Definition userRequest (prompt : string) : ChatCompletionRequest :=
  {| Request_Model := EmptyString;
     Messages := [ {| Role := "user"; Content := prompt; ToolCalls := [];
                      ToolCallId := EmptyString |} ];
     Stream := false; Tools := [] |}.

Definition emptyRequest : ChatCompletionRequest :=
  {| Request_Model := EmptyString; Messages := []; Stream := false; Tools := [] |}.
(** * Properties *)

(** ** The tool registry *)

Section registry_properties.
Context `{!Externals}.

Implicit Types (tm : ToolManager) (catalog : list ToolWithServer).

Lemma ConvertMCPToolsToOpenAI_range_tools catalog m acc :
  (ConvertMCPToolsToOpenAI_range catalog m acc).2 = acc ++ (convertedTool <$> catalog).
Proof.
  revert m acc. induction catalog as [|e catalog IH]; intros m acc; simpl.
  - by rewrite app_nil_r.
  - rewrite IH. by rewrite <- app_assoc.
Qed.

(** The loop inserts the entries from left to right, so a later entry
    overwrites an earlier one of the same name. *)
Lemma ConvertMCPToolsToOpenAI_range_map catalog m acc n :
  (ConvertMCPToolsToOpenAI_range catalog m acc).1 !! n =
    match last (filter (λ e, toolName e = n) catalog) with
    | Some e => Some (ServerName e)
    | None => m !! n
    end.
Proof.
  revert m acc. induction catalog as [|e catalog IH]; intros m acc; simpl.
  - done.
  - rewrite IH, filter_cons.
    destruct (decide (toolName e = n)) as [Heq|Hne].
    + rewrite last_cons.
      destruct (last (filter (λ e0, toolName e0 = n) catalog)); [done|].
      unfold toolName in Heq. subst n. by rewrite lookup_insert_eq.
    + destruct (last (filter (λ e0, toolName e0 = n) catalog)); [done|].
      by rewrite lookup_insert_ne.
Qed.

Lemma last_filter_is_Some {A} (P : A → Prop) `{!∀ x, Decision (P x)} (l : list A) :
  is_Some (last (filter P l)) ↔ ∃ x, x ∈ l ∧ P x.
Proof.
  rewrite last_is_Some. split.
  - intros Hne. destruct (filter P l) as [|x l'] eqn:E; [done|].
    exists x. assert (x ∈ filter P l) as Hin by (rewrite E; left).
    apply list_elem_of_filter in Hin. tauto.
  - intros (x & Hx & HP) E.
    assert (x ∈ filter P l) as Hin by (by apply list_elem_of_filter).
    rewrite E in Hin. by apply not_elem_of_nil in Hin.
Qed.

Lemma GetServerForTool_routable tm n :
  (GetServerForTool tm n).2 = true ↔ is_Some (toolServerMap tm !! n).
Proof.
  unfold GetServerForTool. destruct (toolServerMap tm !! n); simpl.
  - split; [by eauto|done].
  - split; [done|]. by intros [? ?].
Qed.

(** C4. After [ConvertMCPToolsToOpenAI] has run on a catalog, whatever
    the manager held before, [GetServerForTool] answers with the server
    of the last catalog entry that carries the name, and with the zero
    value and [false] when no entry does. Hence a name is routable
    exactly when it occurs in the catalog, and a name that only an
    earlier catalog had is not. *)
Theorem GetServerForTool_after_Convert tm catalog n :
  let tm' := (ConvertMCPToolsToOpenAI tm catalog).2 in
  GetServerForTool tm' n =
    match last (filter (λ e, toolName e = n) catalog) with
    | Some e => (ServerName e, true)
    | None => (EmptyString, false)
    end
  ∧ ((GetServerForTool tm' n).2 = true ↔ ∃ e, e ∈ catalog ∧ toolName e = n)
  ∧ ∀ earlier,
      (∃ e, e ∈ earlier ∧ toolName e = n) →
      (¬ ∃ e, e ∈ catalog ∧ toolName e = n) →
      let tm1 := (ConvertMCPToolsToOpenAI tm earlier).2 in
      (GetServerForTool tm1 n).2 = true
      ∧ GetServerForTool (ConvertMCPToolsToOpenAI tm1 catalog).2 n
        = (EmptyString, false).
Proof.
  assert (∀ tm0 cat,
    GetServerForTool (ConvertMCPToolsToOpenAI tm0 cat).2 n =
      match last (filter (λ e, toolName e = n) cat) with
      | Some e => (ServerName e, true)
      | None => (EmptyString, false)
      end) as Hlookup.
  { intros tm0 cat. unfold ConvertMCPToolsToOpenAI, GetServerForTool.
    pose proof (ConvertMCPToolsToOpenAI_range_map cat ∅ [] n) as Hm.
    destruct (ConvertMCPToolsToOpenAI_range cat ∅ []) as [m tools0].
    simpl in *. rewrite Hm.
    destruct (last (filter (λ e, toolName e = n) cat)); [done|].
    by rewrite lookup_empty. }
  assert (∀ tm0 cat,
    (GetServerForTool (ConvertMCPToolsToOpenAI tm0 cat).2 n).2 = true
    ↔ ∃ e, e ∈ cat ∧ toolName e = n) as Hiff.
  { intros tm0 cat. rewrite Hlookup.
    rewrite <- (last_filter_is_Some (λ e, toolName e = n) cat).
    destruct (last (filter (λ e, toolName e = n) cat)); simpl.
    - split; [by eauto|done].
    - split; [done|]. by intros [? ?]. }
  cbv zeta. split; [apply Hlookup|]. split; [apply Hiff|].
  intros earlier Hin Hout. split; [by apply Hiff|].
  rewrite Hlookup.
  destruct (last (filter (λ e, toolName e = n) catalog)) as [e|] eqn:E; [|done].
  exfalso. apply Hout. apply (last_filter_is_Some (λ e, toolName e = n)).
  rewrite E. by eauto.
Qed.

(** C7. The converted tools are the catalog entries, one for one and in
    order; each carries its entry's name and description unchanged and
    the parameters [convertParameters] makes of the entry's input
    schema: what decoding the encoded schema into a map gives, and
    [{"type": "object", "properties": {}}] when the schema does not
    encode or its encoding does not decode into a map. The conversion
    itself has no failing path. *)
Theorem ConvertMCPToolsToOpenAI_tools tm catalog :
  (ConvertMCPToolsToOpenAI tm catalog).1 = convertedTool <$> catalog
  ∧ (∀ i e, catalog !! i = Some e →
       ∃ t, (ConvertMCPToolsToOpenAI tm catalog).1 !! i = Some t
         ∧ Tool_Type t = "function"
         ∧ Function_Name (Tool_Function t) = McpTool_Name (ToolWithServer_Tool e)
         ∧ Function_Description (Tool_Function t)
             = McpTool_Description (ToolWithServer_Tool e)
         ∧ Function_Parameters (Tool_Function t)
             = convertParameters (McpTool_InputSchema (ToolWithServer_Tool e)))
  ∧ (∀ schema text params,
       json_Marshal_schema schema = Ok text →
       json_Unmarshal_map text = Ok params →
       convertParameters schema = params)
  ∧ (∀ schema,
       (∃ err, json_Marshal_schema schema = Err err)
       ∨ (∃ text err, json_Marshal_schema schema = Ok text
                      ∧ json_Unmarshal_map text = Err err) →
       ∃ m, convertParameters schema = Some m
         ∧ m !! "type" = Some (JString "object")
         ∧ m !! "properties" = Some (JObject ∅)
         ∧ dom m = {["type"; "properties"]}).
Proof.
  assert ((ConvertMCPToolsToOpenAI tm catalog).1 = convertedTool <$> catalog) as Htools.
  { unfold ConvertMCPToolsToOpenAI.
    pose proof (ConvertMCPToolsToOpenAI_range_tools catalog ∅ []) as Ht.
    by destruct (ConvertMCPToolsToOpenAI_range catalog ∅ []). }
  split; [done|]. split; [|split].
  - intros i e Hi. exists (convertedTool e). rewrite Htools.
    rewrite list_lookup_fmap, Hi. done.
  - intros schema text params Henc Hdec. unfold convertParameters.
    by rewrite Henc, Hdec.
  - intros schema Hfail.
    assert (convertParameters schema = emptyObjectSchema) as ->.
    { unfold convertParameters.
      destruct Hfail as [[err ->]|(text & err & -> & ->)]; done. }
    eexists. split; [reflexivity|]. split; [|split].
    + by rewrite lookup_insert_eq.
    + rewrite lookup_insert_ne by done. by rewrite lookup_insert_eq.
    + rewrite !dom_insert_L, dom_empty_L. set_solver.
Qed.

End registry_properties.

(** ** The MCP server pool *)

Section pool_properties.
Context `{!Externals}.

Lemma NoDup_fst_functional {A B} (l : list (A * B)) k x y :
  NoDup l.*1 → (k, x) ∈ l → (k, y) ∈ l → x = y.
Proof.
  induction l as [|[k' z] l IH]; simpl; intros Hnd Hx Hy.
  - by apply not_elem_of_nil in Hx.
  - apply NoDup_cons in Hnd as [Hk' Hnd].
    apply elem_of_cons in Hx as [Hx|Hx]; apply elem_of_cons in Hy as [Hy|Hy].
    + congruence.
    + exfalso. apply Hk'. inversion Hx; subst.
      apply list_elem_of_fmap. by exists (k', y).
    + exfalso. apply Hk'. inversion Hy; subst.
      apply list_elem_of_fmap. by exists (k', x).
    + by apply IH.
Qed.

(** The loop visits the enumeration in order, records one listing call
    per server, and appends what each successful call lists. *)
Lemma ListAllTools_range_spec ctx order w acc :
  ∃ outcomes : list (string * result (list (McpTool Schema))),
    (ListAllTools_range ctx order w acc).2 = uncurry EvListTools <$> outcomes
    ∧ outcomes.*1 = order.*1
    ∧ (ListAllTools_range ctx order w acc).1.2
      = acc ++ concat (listed <$> (ListAllTools_range ctx order w acc).2).
Proof.
  revert w acc. induction order as [|[serverName client] order IH]; intros w acc.
  - exists []. simpl. by rewrite app_nil_r.
  - simpl. destruct (MCPClient_ListTools w ctx client) as [w1 [tools0|err]].
    + destruct (IH w1 (acc ++ map (λ tool, {| ToolWithServer_Tool := tool;
                                               ServerName := serverName |}) tools0))
        as (outcomes & Hev & Hfst & Htools).
      destruct (ListAllTools_range ctx order w1 _) as [[w2 all2] evs].
      simpl in *. exists ((serverName, Ok tools0) :: outcomes). simpl.
      rewrite Htools, Hev. split; [done|]. split; [by f_equal|].
      by rewrite <- app_assoc.
    + destruct (IH w1 acc) as (outcomes & Hev & Hfst & Htools).
      destruct (ListAllTools_range ctx order w1 acc) as [[w2 all2] evs].
      simpl in *. exists ((serverName, Err err) :: outcomes). simpl.
      rewrite Htools, Hev. split; [done|]. split; [by f_equal|]. done.
Qed.

Lemma elem_of_listed e (outcomes : list (string * result (list (McpTool Schema)))) :
  e ∈ concat (listed <$> (uncurry EvListTools <$> outcomes))
  ↔ ∃ tools0, (ServerName e, Ok tools0) ∈ outcomes ∧ ToolWithServer_Tool e ∈ tools0.
Proof.
  induction outcomes as [|[s r] outcomes IH]; simpl.
  - split; [by intros ?%not_elem_of_nil|].
    by intros (? & ?%not_elem_of_nil & _).
  - rewrite elem_of_app, IH. split.
    + intros [Hhere|(tools0 & Hin & Ht)].
      * destruct r as [tools0|err]; simpl in Hhere;
          [|by apply not_elem_of_nil in Hhere].
        apply list_elem_of_fmap in Hhere as (tool & -> & Htool).
        exists tools0. split; [left|done].
      * exists tools0. split; [by right|done].
    + intros (tools0 & Hin & Ht). apply elem_of_cons in Hin as [Heq|Hin].
      * left. inversion Heq; subst. simpl. apply list_elem_of_fmap.
        exists (ToolWithServer_Tool e). split; [by destruct e|done].
      * right. by eauto.
Qed.

(** The calls are made on the servers of the enumeration, in order. *)
Lemma listingCalls_order ctx order w :
  (λ call, call.1) <$> listingCalls ctx order w = order.
Proof.
  revert w. induction order as [|[serverName client] order IH]; intros w; simpl.
  - done.
  - by rewrite IH.
Qed.

(** The loop makes exactly these calls and appends what each of them
    lists. *)
Lemma ListAllTools_range_calls ctx order w acc :
  (ListAllTools_range ctx order w acc).1.2
  = acc ++ concat (calledTools ctx <$> listingCalls ctx order w)
  ∧ (ListAllTools_range ctx order w acc).2
    = (λ call, EvListTools call.1.1 (callResult ctx call)) <$> listingCalls ctx order w.
Proof.
  revert w acc. induction order as [|[serverName client] order IH]; intros w acc.
  - simpl. by rewrite app_nil_r.
  - simpl. unfold calledTools at 1, callResult at 1 2. simpl.
    destruct (MCPClient_ListTools w ctx client) as [w1 [tools0|err]] eqn:Hcall; simpl.
    + destruct (IH w1 (acc ++ map (λ tool, {| ToolWithServer_Tool := tool;
                                               ServerName := serverName |}) tools0))
        as [Htools Hev].
      destruct (ListAllTools_range ctx order w1 _) as [[w2 all2] evs].
      simpl in *. rewrite Htools, Hev. by rewrite <- app_assoc.
    + destruct (IH w1 acc) as [Htools Hev].
      destruct (ListAllTools_range ctx order w1 acc) as [[w2 all2] evs].
      simpl in *. by rewrite Htools, Hev.
Qed.

Lemma elem_of_calledTools ctx (calls : list (string * MCPClient * World)) e :
  e ∈ concat (calledTools ctx <$> calls)
  ↔ ∃ client wi tools0,
      (ServerName e, client, wi) ∈ calls
      ∧ (MCPClient_ListTools wi ctx client).2 = Ok tools0
      ∧ ToolWithServer_Tool e ∈ tools0.
Proof.
  induction calls as [|[[n cl] wi] calls IH]; simpl.
  - split; [by intros ?%not_elem_of_nil|].
    by intros (? & ? & ? & ?%not_elem_of_nil & _).
  - rewrite elem_of_app, IH. split.
    + intros [Hhere|(client & wi' & tools0 & Hin & Hok & Ht)].
      * unfold calledTools, callResult in Hhere. simpl in Hhere.
        destruct (MCPClient_ListTools wi ctx cl).2 as [tools0|err] eqn:Hcall;
          [|by apply not_elem_of_nil in Hhere].
        apply list_elem_of_fmap in Hhere as (tool & -> & Htool).
        exists cl, wi, tools0. split; [left|done].
      * exists client, wi', tools0. split; [by right|done].
    + intros (client & wi' & tools0 & Hin & Hok & Ht).
      apply elem_of_cons in Hin as [Heq|Hin].
      * left. injection Heq as <- <- <-. unfold calledTools, callResult. simpl.
        rewrite Hok. apply list_elem_of_fmap.
        exists (ToolWithServer_Tool e). split; [by destruct e|done].
      * right. by exists client, wi', tools0.
Qed.

(** A server is called once, so a call is determined by its name. *)
Lemma listingCalls_functional ctx order w n client1 wi1 client2 wi2 :
  NoDup order.*1 →
  (n, client1, wi1) ∈ listingCalls ctx order w →
  (n, client2, wi2) ∈ listingCalls ctx order w →
  client1 = client2 ∧ wi1 = wi2.
Proof.
  intros Hnd H1 H2.
  assert (NoDup ((λ call : string * MCPClient * World,
                    (call.1.1, (call.1.2, call.2))) <$> listingCalls ctx order w).*1)
    as Hnd'.
  { rewrite <- list_fmap_compose.
    rewrite <- (listingCalls_order ctx order w), <- list_fmap_compose in Hnd.
    exact Hnd. }
  assert ((client1, wi1) = (client2, wi2)) as Heq.
  { eapply (NoDup_fst_functional _ n); [exact Hnd'|..];
      apply list_elem_of_fmap; [by exists (n, client1, wi1)|by exists (n, client2, wi2)]. }
  by injection Heq.
Qed.

(** C6. [ListAllTools] never fails. It asks the client of every
    registered backend for its tools, each exactly once, in the order
    the runtime enumerates the map, and the slice it returns holds, in
    that order, what the backends that answered listed, each tool paired
    with the name of its backend. So an entry is in the result exactly
    when the client registered under its server name was asked and
    listed that tool, and a backend whose listing failed has no entry at
    all. When what a backend lists does not depend on the moment it is
    asked, the result is the union, over the registered backends whose
    listing succeeds, of their tools. *)
Theorem ListAllTools_union (m : MCPManager) (ctx : Ctx) (w : World) :
  let order := (range_servers w (servers m)).2 in
  let calls := listingCalls ctx order (range_servers w (servers m)).1 in
  let allTools := (ListAllTools m ctx w).1.2.1 in
  (ListAllTools m ctx w).1.2.2 = None
  ∧ order ≡ₚ map_to_list (servers m)
  ∧ (λ call, call.1) <$> calls = order
  ∧ (ListAllTools m ctx w).2
    = (λ call, EvListTools call.1.1 (callResult ctx call)) <$> calls
  ∧ allTools = concat (calledTools ctx <$> calls)
  ∧ (∀ e, e ∈ allTools ↔
       ∃ client wi tools0,
         (ServerName e, client, wi) ∈ calls
         ∧ servers m !! ServerName e = Some client
         ∧ (MCPClient_ListTools wi ctx client).2 = Ok tools0
         ∧ ToolWithServer_Tool e ∈ tools0)
  ∧ (∀ serverName client wi err0,
       (serverName, client, wi) ∈ calls →
       (MCPClient_ListTools wi ctx client).2 = Err err0 →
       ∀ e, e ∈ allTools → ServerName e ≠ serverName)
  ∧ ((∀ client w1 w2,
        (MCPClient_ListTools w1 ctx client).2 = (MCPClient_ListTools w2 ctx client).2) →
     ∀ e, e ∈ allTools ↔
       ∃ client tools0,
         servers m !! ServerName e = Some client
         ∧ (MCPClient_ListTools w ctx client).2 = Ok tools0
         ∧ ToolWithServer_Tool e ∈ tools0).
Proof.
  intros order calls allTools. subst order calls allTools. unfold ListAllTools.
  pose proof (range_servers_perm w (servers m)) as Hperm.
  destruct (range_servers w (servers m)) as [w0 order]. simpl in Hperm. simpl.
  destruct (ListAllTools_range_calls ctx order w0 []) as [Htools Hev].
  pose proof (listingCalls_order ctx order w0) as Horder.
  destruct (ListAllTools_range ctx order w0 []) as [[w1 allTools] evs].
  simpl in *. set (calls := listingCalls ctx order w0) in *.
  assert (NoDup order.*1) as Hnd.
  { rewrite Hperm. apply NoDup_fst_map_to_list. }
  assert (∀ n client wi, (n, client, wi) ∈ calls → servers m !! n = Some client)
    as Hreg.
  { intros n client wi Hin. apply elem_of_map_to_list. rewrite <- Hperm, <- Horder.
    apply list_elem_of_fmap. by exists (n, client, wi). }
  assert (∀ n client, servers m !! n = Some client → ∃ wi, (n, client, wi) ∈ calls)
    as Hcalled.
  { intros n client Hs. apply elem_of_map_to_list in Hs.
    rewrite <- Hperm, <- Horder in Hs.
    apply list_elem_of_fmap in Hs as ([[n' c'] wi] & [= -> ->] & Hin). by exists wi. }
  assert (∀ e, e ∈ allTools ↔
            ∃ client wi tools0,
              (ServerName e, client, wi) ∈ calls
              ∧ servers m !! ServerName e = Some client
              ∧ (MCPClient_ListTools wi ctx client).2 = Ok tools0
              ∧ ToolWithServer_Tool e ∈ tools0) as Hiff.
  { intros e. rewrite Htools, elem_of_calledTools. split.
    - intros (client & wi & tools0 & Hin & Hok & Ht).
      exists client, wi, tools0. split; [done|]. split; [by eapply Hreg|done].
    - intros (client & wi & tools0 & Hin & _ & Hok & Ht). by exists client, wi, tools0. }
  split; [done|]. split; [done|]. split; [done|]. split; [done|].
  split; [done|]. split; [exact Hiff|]. split.
  - intros serverName client wi err0 Hin Hfailed e He Hname.
    apply Hiff in He as (client' & wi' & tools0 & Hin' & _ & Hok & _).
    rewrite Hname in Hin'.
    destruct (listingCalls_functional ctx order w0 _ _ _ _ _ Hnd Hin Hin') as [-> ->].
    congruence.
  - intros Hstateless e. rewrite Hiff. split.
    + intros (client & wi & tools0 & _ & Hs & Hok & Ht). exists client, tools0.
      split; [done|]. split; [|done]. by rewrite (Hstateless client w wi).
    + intros (client & tools0 & Hs & Hok & Ht).
      destruct (Hcalled _ _ Hs) as [wi Hin]. exists client, wi, tools0.
      split; [done|]. split; [done|]. split; [|done].
      by rewrite (Hstateless client wi w).
Qed.

(** C10. The error [ListAllTools] returns is nil in every world and for
    every context, so the handlers that call it never take the branch
    that records "failed to list tools": [listTools] always writes the
    listing with status 200, and [listServerTools] writes a 200 or a 404
    body. *)
Theorem ListAllTools_error_nil (blaxelClient : Client) (c : Ctx) (w : World) :
  (ListAllTools (McpManager blaxelClient) c w).1.2.2 = None
  ∧ (listTools blaxelClient c w).2
    = (let allTools := (ListAllTools (McpManager blaxelClient) c w).1.2.1 in
       JSON StatusOK (H_tools allTools (Z.of_nat (length allTools))))
  ∧ (∀ e, (listTools blaxelClient c w).2 ≠ RecordedError e)
  ∧ (∀ serverName e,
       (listServerTools blaxelClient c serverName w).2 ≠ RecordedError e).
Proof.
  unfold listTools, listServerTools, ListAllTools.
  destruct (range_servers w (servers (McpManager blaxelClient))) as [w0 order].
  destruct (ListAllTools_range c order w0 []) as [[w1 allTools] evs]. simpl.
  split; [done|]. split; [done|]. split; [done|].
  intros serverName e. by case_bool_decide.
Qed.

End pool_properties.

(** ** The agent loop *)

Section agent_properties.
Context `{!Externals}.

Implicit Types (a : Agent) (ctx : Ctx) (w : World) (evs : list Event).
Implicit Types (messages : list ChatMessage) (calls : list ToolCall).

(** *** Counting calls *)

Lemma modelCallCount_app evs1 evs2 :
  modelCallCount (evs1 ++ evs2) = (modelCallCount evs1 + modelCallCount evs2)%nat.
Proof. unfold modelCallCount. by rewrite filter_app, length_app. Qed.

Lemma toolCallCount_app evs1 evs2 :
  toolCallCount (evs1 ++ evs2) = (toolCallCount evs1 + toolCallCount evs2)%nat.
Proof. unfold toolCallCount. by rewrite filter_app, length_app. Qed.

Lemma modelCallCount_tools_only evs :
  forallb isToolCall evs = true → modelCallCount evs = 0%nat.
Proof.
  unfold modelCallCount. induction evs as [|ev evs IH]; [done|]. simpl.
  intros [Hev Hevs]%andb_prop. rewrite filter_cons.
  destruct ev; try done. simpl. by apply IH.
Qed.

Lemma not_elem_of_tools_only evs i req res :
  forallb isToolCall evs = true → EvModel i req res ∉ evs.
Proof.
  intros Hall Hin. apply list_elem_of_In in Hin.
  rewrite forallb_forall in Hall. by apply Hall in Hin.
Qed.

(** *** The synthesized response *)

Lemma createMaxIterationsResponse_shape a w :
  ∃ choice,
    Choices (createMaxIterationsResponse a w).2 = [choice]
    ∧ Role (Message choice) = "assistant"
    ∧ ToolCalls (Message choice) = []
    ∧ FinishReason choice = "length"
    ∧ Usage (createMaxIterationsResponse a w).2
      = {| PromptTokens := 0; CompletionTokens := 0; TotalTokens := 0 |}.
Proof.
  unfold createMaxIterationsResponse.
  destruct (time_Now_Unix w) as [w1 t1]. destruct (time_Now_Unix w1) as [w2 t2].
  simpl. eexists. by split.
Qed.

(** *** The tool-call loop *)

Lemma executeToolCalls_spec a ctx iteration calls w messages :
  let '(_, messages', evs, e) :=
    executeToolCalls a ctx iteration calls w messages in
  forallb isToolCall evs = true
  ∧ ∃ toolMessages,
      messages' = messages ++ toolMessages
      ∧ match e with
        | None =>
            Forall2 answers calls toolMessages
            ∧ forallb toolSucceeded evs = true
            ∧ toolCallCount evs = length calls
        | Some _ =>
            (∃ k, (k < length calls)%nat
                  ∧ Forall2 answers (take k calls) toolMessages)
            ∧ forallb toolSucceeded evs = false
        end.
Proof.
  revert w messages.
  induction calls as [|toolCall rest IH]; intros w messages; simpl.
  - split; [done|]. exists []. rewrite app_nil_r. by repeat split.
  - destruct (executeToolCall a ctx w toolCall) as [w1 [toolResult|err]].
    + specialize (IH w1 (messages ++ [toolMessage toolCall toolResult])).
      destruct (executeToolCalls a ctx iteration rest w1 _)
        as [[[w2 messages2] evs] e].
      destruct IH as (Hevs & toolMessages & -> & He). simpl.
      split; [done|].
      exists (toolMessage toolCall toolResult :: toolMessages).
      split; [by rewrite <- app_assoc|].
      destruct e as [err|].
      * destruct He as [(k & Hk & Hans) Hfail]. split; [|done].
        exists (S k). split; [lia|]. simpl. by constructor.
      * destruct He as (Hans & Hok & Hcount). split; [by constructor|].
        split; [done|]. unfold toolCallCount in *. rewrite filter_cons. simpl.
        by rewrite Hcount.
    + simpl. split; [done|]. exists []. rewrite app_nil_r. split; [done|].
      split; [|done]. exists 0%nat. split; [lia|]. by constructor.
Qed.

(** *** Construction *)

(** An agent with a positive budget calls the model at least once. *)
Lemma Run_calls_model a ctx (userInput : string) w :
  1 ≤ maxIterations a →
  (1 ≤ modelCallCount (events (Run a ctx userInput w)))%nat.
Proof.
  intros Hpos. unfold Run.
  destruct (Z.to_nat (maxIterations a)) as [|fuel] eqn:Hfuel; [lia|]. simpl.
  rewrite bool_decide_eq_true_2 by lia.
  assert (∀ i req r evs, (1 ≤ modelCallCount (EvModel i req r :: evs))%nat) as Hone.
  { intros. unfold modelCallCount. rewrite filter_cons. simpl. lia. }
  destruct (CreateChatCompletion _ _ _) as [w1 [resp|err]]; [|by apply Hone].
  destruct (Choices resp) as [|choice choices]; [by apply Hone|].
  destruct (ToolCalls (Message choice)) as [|toolCall rest]; [by apply Hone|].
  destruct (executeToolCalls _ _ _ _ _ _) as [[[w2 messages2] evs] [err|]];
    by apply Hone.
Qed.

(** C8. A configuration whose [MaxIterations] is zero or negative gives
    an agent with a budget of 10, and a run of that agent does call the
    model: it does not run zero iterations. *)
Theorem NewAgent_default_maxIterations (config : Config) (blaxelClient : Client)
    ctx (userInput : string) w :
  Config_MaxIterations config ≤ 0 →
  maxIterations (NewAgent config blaxelClient) = 10
  ∧ (1 ≤ modelCallCount (events (Run (NewAgent config blaxelClient) ctx userInput w)))%nat.
Proof.
  intros Hle.
  assert (maxIterations (NewAgent config blaxelClient) = 10) as Hmax.
  { unfold NewAgent. simpl. by rewrite bool_decide_eq_true_2. }
  split; [done|]. apply Run_calls_model. lia.
Qed.

(** C9. [SetMaxIterations] stores what it is given. With a budget of
    zero or less, [Run] makes no external call at all, neither to the
    model nor to a tool, and returns the synthesized response with a nil
    error: one assistant choice, finish reason "length", zero usage. *)
Theorem SetMaxIterations_nonpositive a (k : Z) ctx (userInput : string) w :
  k ≤ 0 →
  let a' := SetMaxIterations a k in
  let x := Run a' ctx userInput w in
  maxIterations a' = k
  ∧ events x = []
  ∧ modelCallCount (events x) = 0%nat
  ∧ toolCallCount (events x) = 0%nat
  ∧ returned x = Some (Ok (createMaxIterationsResponse a' w).2)
  ∧ ∃ choice,
      Choices (createMaxIterationsResponse a' w).2 = [choice]
      ∧ Role (Message choice) = "assistant"
      ∧ FinishReason choice = "length"
      ∧ Usage (createMaxIterationsResponse a' w).2
        = {| PromptTokens := 0; CompletionTokens := 0; TotalTokens := 0 |}.
Proof.
  intros Hk a' x.
  assert (x = {| final_world := (createMaxIterationsResponse a' w).1;
                 conversation := initialMessages a' userInput;
                 events := [];
                 returned := Some (Ok (createMaxIterationsResponse a' w).2) |}) as ->.
  { unfold x, Run. simpl maxIterations.
    replace (Z.to_nat k) with 0%nat by lia. simpl.
    rewrite bool_decide_eq_false_2 by lia.
    by destruct (createMaxIterationsResponse a' w). }
  simpl. repeat (split; [done|]).
  destruct (createMaxIterationsResponse_shape a' w) as (choice & ? & ? & ? & ? & ?).
  exists choice. by repeat split.
Qed.

(** *** Termination and the loop counter *)

(** With fuel for every remaining iteration the loop returns. *)
Lemma Run_loop_returns fuel a ctx iteration w messages :
  (Z.to_nat (maxIterations a - iteration + 1) ≤ fuel)%nat →
  is_Some (returned (Run_loop fuel a ctx iteration w messages)).
Proof.
  revert iteration w messages.
  induction fuel as [|fuel IH]; intros iteration w messages Hfuel; simpl.
  - rewrite bool_decide_eq_false_2 by lia.
    destruct (createMaxIterationsResponse a w). simpl. by eauto.
  - case_bool_decide;
      [|destruct (createMaxIterationsResponse a w); simpl; by eauto].
    destruct (CreateChatCompletion _ _ _) as [w1 [resp|err]]; [|simpl; by eauto].
    destruct (Choices resp) as [|choice choices]; [simpl; by eauto|].
    destruct (ToolCalls (Message choice)) as [|toolCall rest]; [simpl; by eauto|].
    destruct (executeToolCalls _ _ _ _ _ _) as [[[w2 messages2] evs] [err|]];
      [simpl; by eauto|].
    simpl. apply IH. lia.
Qed.

(** [Run] returns: its Go results are always there. *)
Lemma Run_returns a ctx (userInput : string) w :
  is_Some (returned (Run a ctx userInput w)).
Proof. apply Run_loop_returns. lia. Qed.

(** The counter of an iteration is at most half the length of the
    conversation that iteration sends. *)
Lemma Run_loop_counter_bounded fuel a ctx iteration w messages j req res :
  2 * iteration ≤ Z.of_nat (length messages) →
  EvModel j req res ∈ events (Run_loop fuel a ctx iteration w messages) →
  iteration ≤ j ≤ maxIterations a ∧ 2 * j ≤ Z.of_nat (length (Messages req)).
Proof.
  revert iteration w messages.
  induction fuel as [|fuel IH]; intros iteration w messages Hlen; simpl.
  - case_bool_decide; [|destruct (createMaxIterationsResponse a w)];
      simpl; by intros ?%not_elem_of_nil.
  - case_bool_decide;
      [|destruct (createMaxIterationsResponse a w); simpl;
        by intros ?%not_elem_of_nil].
    set (req0 := {| Request_Model := EmptyString; Messages := messages;
                    Stream := false; Tools := tools a |}).
    assert (∀ r, EvModel j req res ∈ [EvModel iteration req0 r] →
              iteration ≤ j ≤ maxIterations a
              ∧ 2 * j ≤ Z.of_nat (length (Messages req))) as Hhere.
    { intros r Hin. apply list_elem_of_singleton in Hin.
      inversion Hin; subst. simpl. lia. }
    destruct (CreateChatCompletion _ _ _) as [w1 [resp|err]]; [|by apply Hhere].
    destruct (Choices resp) as [|choice choices]; [by apply Hhere|].
    destruct (ToolCalls (Message choice)) as [|toolCall rest] eqn:Hcalls;
      [by apply Hhere|].
    pose proof (executeToolCalls_spec a ctx iteration (toolCall :: rest) w1
                  (messages ++ [Message choice])) as Hspec.
    destruct (executeToolCalls _ _ _ _ _ _) as [[[w2 messages2] evs] e].
    destruct Hspec as (Htools & toolMessages & -> & He).
    destruct e as [err|]; simpl.
    + intros [Hin|Hin]%elem_of_cons.
      * apply Hhere with (r := Ok resp). rewrite Hin. left.
      * by apply not_elem_of_tools_only in Hin.
    + destruct He as (Hans & _ & _). apply Forall2_length in Hans. simpl in Hans.
      intros [Hin|[Hin|Hin]%elem_of_app]%elem_of_cons.
      * apply Hhere with (r := Ok resp). rewrite Hin. left.
      * by apply not_elem_of_tools_only in Hin.
      * apply IH in Hin; [lia|]. rewrite !length_app. simpl. lia.
Qed.

Lemma Run_counter_bounded a ctx (userInput : string) w j req res :
  EvModel j req res ∈ events (Run a ctx userInput w) →
  1 ≤ j ≤ maxIterations a ∧ 2 * j ≤ Z.of_nat (length (Messages req)).
Proof. apply Run_loop_counter_bounded. simpl. lia. Qed.

(** *** The first answer *)

(** C3. When the first response the model gives in a run has a choice
    and that choice's message asks for no tool, the run consists of that
    one model call and of no tool call, and [Run] returns the very
    response it received, with a nil error. The conversation it leaves is
    the two initial messages and the model's message. *)
Theorem Run_first_answer a ctx (userInput : string) w
    i req resp choice choices :
  let x := Run a ctx userInput w in
  head (events x) = Some (EvModel i req (Ok resp)) →
  Choices resp = choice :: choices →
  ToolCalls (Message choice) = [] →
  events x = [EvModel 1 req (Ok resp)]
  ∧ modelCallCount (events x) = 1%nat
  ∧ toolCallCount (events x) = 0%nat
  ∧ returned x = Some (Ok resp)
  ∧ Messages req = initialMessages a userInput
  ∧ conversation x = initialMessages a userInput ++ [Message choice].
Proof.
  intros x Hhead Hchoices Hnone. unfold x, Run in *. clear x.
  destruct (Z.to_nat (maxIterations a)) as [|fuel] eqn:Hfuel; simpl in *.
  - case_bool_decide; [|destruct (createMaxIterationsResponse a w)]; done.
  - case_bool_decide; [|by destruct (createMaxIterationsResponse a w)].
    destruct (CreateChatCompletion _ _ _) as [w1 [resp'|err]]; [|done].
    destruct (Choices resp') as [|choice' choices'] eqn:Hchoices'.
    { simpl in Hhead. congruence. }
    destruct (ToolCalls (Message choice')) as [|toolCall rest] eqn:Hcalls.
    + simpl in *. inversion Hhead; subst.
      rewrite Hchoices in Hchoices'. inversion Hchoices'; subst. done.
    + exfalso.
      destruct (executeToolCalls _ _ _ _ _ _) as [[[w2 messages2] evs] [err|]];
        simpl in Hhead; inversion Hhead; subst;
        rewrite Hchoices in Hchoices'; inversion Hchoices'; subst; congruence.
Qed.

(** *** Exhausting the budget *)

Lemma Run_loop_exhausts fuel a ctx iteration w messages :
  let x := Run_loop fuel a ctx iteration w messages in
  forallb requestsTools (events x) = true →
  forallb toolSucceeded (events x) = true →
  (Z.to_nat (maxIterations a - iteration + 1) ≤ fuel)%nat →
  modelCallCount (events x) = Z.to_nat (maxIterations a - iteration + 1)
  ∧ ∃ w', returned x = Some (Ok (createMaxIterationsResponse a w').2).
Proof.
  revert iteration w messages.
  induction fuel as [|fuel IH]; intros iteration w messages; simpl.
  - intros _ _ Hfuel. rewrite bool_decide_eq_false_2 by lia.
    replace (Z.to_nat (maxIterations a - iteration + 1)) with 0%nat by lia.
    destruct (createMaxIterationsResponse a w) as [w1 resp] eqn:E. simpl.
    split; [done|]. exists w. by rewrite E.
  - case_bool_decide as Hle.
    2:{ intros _ _ _.
        replace (Z.to_nat (maxIterations a - iteration + 1)) with 0%nat by lia.
        destruct (createMaxIterationsResponse a w) as [w1 resp] eqn:E. simpl.
        split; [done|]. exists w. by rewrite E. }
    destruct (CreateChatCompletion _ _ _) as [w1 [resp|err]]; [|done].
    destruct (Choices resp) as [|choice choices] eqn:Hchoices.
    { simpl. by rewrite Hchoices. }
    destruct (ToolCalls (Message choice)) as [|toolCall rest] eqn:Hcalls.
    { simpl. by rewrite Hchoices, Hcalls. }
    pose proof (executeToolCalls_spec a ctx iteration (toolCall :: rest) w1
                  (messages ++ [Message choice])) as Hspec.
    destruct (executeToolCalls _ _ _ _ _ _) as [[[w2 messages2] evs] e].
    destruct Hspec as (Htools & toolMessages & -> & He).
    destruct e as [err|].
    + destruct He as [_ Hfail]. simpl. rewrite Hchoices, Hcalls. simpl.
      intros _ Hok. by rewrite Hfail in Hok.
    + cbn [events returned]. cbn [app forallb].
      rewrite !forallb_app.
      intros [_ [_ Hreq]%andb_prop]%andb_prop [_ [_ Hsucc]%andb_prop]%andb_prop Hfuel.
      destruct (IH (iteration + 1) w2
                  ((messages ++ [Message choice]) ++ toolMessages) Hreq Hsucc)
        as [Hcount Hret]; [lia|].
      split; [|done].
      change (EvModel iteration ?r ?s :: evs ++ ?rest)
        with ([EvModel iteration r s] ++ evs ++ rest).
      rewrite !modelCallCount_app, Hcount, (modelCallCount_tools_only evs) by done.
      unfold modelCallCount at 1. rewrite filter_cons. simpl. lia.
Qed.

(** C2. Take a run of an agent whose budget is [N ≥ 1] in which every
    response of the model asks for at least one tool and every tool call
    succeeds. That run makes exactly [N] model calls, and [Run] returns,
    with a nil error, the synthesized response: a single choice whose
    message has role "assistant" and whose finish reason is "length",
    and usage counters that are all zero. *)
Theorem Run_exhausts_budget a ctx (userInput : string) w :
  let x := Run a ctx userInput w in
  1 ≤ maxIterations a →
  forallb requestsTools (events x) = true →
  forallb toolSucceeded (events x) = true →
  Z.of_nat (modelCallCount (events x)) = maxIterations a
  ∧ ∃ resp choice,
      returned x = Some (Ok resp)
      ∧ Choices resp = [choice]
      ∧ Role (Message choice) = "assistant"
      ∧ FinishReason choice = "length"
      ∧ PromptTokens (Usage resp) = 0
      ∧ CompletionTokens (Usage resp) = 0
      ∧ TotalTokens (Usage resp) = 0.
Proof.
  intros x HN Hreq Hsucc.
  destruct (Run_loop_exhausts (Z.to_nat (maxIterations a)) a ctx 1 w
              (initialMessages a userInput) Hreq Hsucc) as [Hcount [w' Hret]]; [lia|].
  fold (Run a ctx userInput w) in Hcount, Hret. fold x in Hcount, Hret.
  split; [rewrite Hcount; lia|].
  destruct (createMaxIterationsResponse_shape a w') as (choice & Hc & Hrole & _ & Hfin & Hu).
  exists (createMaxIterationsResponse a w').2, choice.
  rewrite Hu. by repeat split.
Qed.

(** *** Tool arguments *)

Lemma executeToolCall_malformed a ctx w toolCall err :
  ToolCallFunction_Arguments (ToolCall_Function toolCall) ≠ EmptyString →
  json_Unmarshal (ToolCallFunction_Arguments (ToolCall_Function toolCall)) = Err err →
  executeToolCall a ctx w toolCall = (w, Err (ErrParseArguments err)).
Proof.
  intros Hne Herr. unfold executeToolCall.
  by rewrite bool_decide_eq_true_2, Herr.
Qed.

Lemma executeToolCalls_malformed a ctx iteration calls w messages toolCall :
  toolCall ∈ calls → malformedArguments toolCall →
  is_Some (executeToolCalls a ctx iteration calls w messages).2.
Proof.
  intros Hin (Hne & err & Herr). revert w messages.
  induction calls as [|toolCall' rest IH]; intros w messages; simpl.
  - by apply not_elem_of_nil in Hin.
  - destruct (executeToolCall a ctx w toolCall') as [w1 [toolResult|err']] eqn:Hexec;
      [|simpl; by eauto].
    apply elem_of_cons in Hin as [->|Hin].
    + rewrite (executeToolCall_malformed _ _ _ _ err) in Hexec by done. done.
    + specialize (IH Hin w1 (messages ++ [toolMessage toolCall' toolResult])).
      by destruct (executeToolCalls a ctx iteration rest w1 _) as [[[? ?] ?] ?].
Qed.

Lemma Run_loop_malformed fuel a ctx iteration w messages
    i req resp choice choices toolCall :
  EvModel i req (Ok resp) ∈ events (Run_loop fuel a ctx iteration w messages) →
  Choices resp = choice :: choices →
  toolCall ∈ ToolCalls (Message choice) →
  malformedArguments toolCall →
  ∃ err, returned (Run_loop fuel a ctx iteration w messages) = Some (Err err).
Proof.
  intros Hin Hchoices Hcall Hbad. revert iteration w messages Hin.
  induction fuel as [|fuel IH]; intros iteration w messages; simpl.
  - case_bool_decide; [|destruct (createMaxIterationsResponse a w)];
      simpl; by intros ?%not_elem_of_nil.
  - case_bool_decide;
      [|destruct (createMaxIterationsResponse a w); simpl;
        by intros ?%not_elem_of_nil].
    destruct (CreateChatCompletion _ _ _) as [w1 [resp'|err]].
    2:{ simpl. intros Hin%list_elem_of_singleton. by inversion Hin. }
    destruct (Choices resp') as [|choice' choices'] eqn:Hchoices'.
    { simpl. intros Hin%list_elem_of_singleton. inversion Hin; subst. congruence. }
    destruct (ToolCalls (Message choice')) as [|toolCall' rest] eqn:Hcalls.
    { simpl. intros Hin%list_elem_of_singleton. inversion Hin; subst.
      rewrite Hchoices in Hchoices'. inversion Hchoices'; subst.
      rewrite Hcalls in Hcall. by apply not_elem_of_nil in Hcall. }
    pose proof (executeToolCalls_spec a ctx iteration (toolCall' :: rest) w1
                  (messages ++ [Message choice'])) as Hspec.
    pose proof (λ H, executeToolCalls_malformed a ctx iteration (toolCall' :: rest) w1
                  (messages ++ [Message choice']) toolCall H Hbad) as Hfails.
    destruct (executeToolCalls _ _ _ _ _ _) as [[[w2 messages2] evs] e].
    destruct Hspec as (Htools & _). simpl in Hfails.
    destruct e as [err|]; simpl.
    + intros _. by eauto.
    + intros [Hin|[Hin|Hin]%elem_of_app]%elem_of_cons.
      * exfalso. inversion Hin; subst.
        rewrite Hchoices in Hchoices'. inversion Hchoices'; subst.
        rewrite Hcalls in Hcall. by destruct (Hfails Hcall).
      * by apply not_elem_of_tools_only in Hin.
      * by apply IH.
Qed.

(** C5. Executing a tool call whose argument text is empty parses
    nothing: the call goes to routing with nil parameters, and what it
    returns is never an argument-parse error. Executing one whose
    argument text is not empty and does not parse returns the parse
    error without touching the world. And a run in which the model asks
    for such a call ends with an error and no response, whichever
    position the call has among the calls of its message. *)
Theorem executeToolCall_arguments a ctx w toolCall :
  let arguments := ToolCallFunction_Arguments (ToolCall_Function toolCall) in
  let toolName0 := ToolCallFunction_Name (ToolCall_Function toolCall) in
  (arguments = EmptyString →
     (∀ err, (executeToolCall a ctx w toolCall).2 ≠ Err (ErrParseArguments err))
     ∧ executeToolCall a ctx w toolCall =
         match GetServerForTool (toolManager a) toolName0 with
         | (_, false) => (w, Err (ErrNoServer toolName0))
         | (serverName, true) =>
             let '(w1, r) :=
               CallTool (McpManager (blaxelClient a)) ctx w serverName toolName0 JNull in
             match r with
             | Err err => (w1, Err (ErrCallTool toolName0 err))
             | Ok toolResult =>
                 match json_Marshal_content (CallToolResult_Content toolResult) with
                 | Err err => (w1, Err (ErrMarshalResult err))
                 | Ok content => (w1, Ok content)
                 end
             end
         end)
  ∧ (arguments ≠ EmptyString →
     ∀ err, json_Unmarshal arguments = Err err →
       executeToolCall a ctx w toolCall = (w, Err (ErrParseArguments err))
       ∧ ∀ (userInput : string) w0 i req resp choice choices,
           let x := Run a ctx userInput w0 in
           EvModel i req (Ok resp) ∈ events x →
           Choices resp = choice :: choices →
           toolCall ∈ ToolCalls (Message choice) →
           ∃ e, returned x = Some (Err e)).
Proof.
  intros arguments toolName0. split.
  - intros Hempty.
    assert (executeToolCall a ctx w toolCall =
         match GetServerForTool (toolManager a) toolName0 with
         | (_, false) => (w, Err (ErrNoServer toolName0))
         | (serverName, true) =>
             let '(w1, r) :=
               CallTool (McpManager (blaxelClient a)) ctx w serverName toolName0 JNull in
             match r with
             | Err err => (w1, Err (ErrCallTool toolName0 err))
             | Ok toolResult =>
                 match json_Marshal_content (CallToolResult_Content toolResult) with
                 | Err err => (w1, Err (ErrMarshalResult err))
                 | Ok content => (w1, Ok content)
                 end
             end
         end) as Heq.
    { unfold executeToolCall. fold arguments toolName0.
      by rewrite bool_decide_eq_false_2 by (by intros []). }
    split; [|done]. rewrite Heq. intros err.
    destruct (GetServerForTool (toolManager a) toolName0) as [serverName [|]]; [|done].
    destruct (CallTool _ _ _ _ _ _) as [w1 [toolResult|err']]; [|done].
    by destruct (json_Marshal_content _).
  - intros Hne err Herr. split; [by apply executeToolCall_malformed|].
    intros userInput w0 i req resp choice choices x Hin Hchoices Hcall.
    eapply Run_loop_malformed; [done..|]. split; [done|]. by eauto.
Qed.

(** *** The shape of the conversation *)









End agent_properties.

(** * Further properties *)

(** ** The agent loop, continued *)

Section agent_more.
Context `{!Externals}.

Implicit Types (a : Agent) (ctx : Ctx) (w : World) (evs : list Event).
Implicit Types (messages : list ChatMessage) (calls : list ToolCall).


(** What the tool-call loop leaves in the event list: the calls it
    executed are the first calls of the message, all of them when it ends
    without an error; when it ends with one, the failing call is the last
    event and the error names it. *)
Lemma executeToolCalls_events a ctx iteration calls w messages :
  let '(_, _, evs, e) := executeToolCalls a ctx iteration calls w messages in
  executedCalls evs `prefix_of` calls
  ∧ match e with
    | None => executedCalls evs = calls
    | Some err =>
        ∃ call cause,
          last evs = Some (EvTool call (Err cause))
          ∧ err = ErrExecuteTool
                    (ToolCallFunction_Name (ToolCall_Function call)) iteration cause
    end.
Proof.
  assert (∀ call r evs,
            executedCalls (EvTool call r :: evs) = call :: executedCalls evs)
    as Hcons by done.
  revert w messages. induction calls as [|call rest IH]; intros w messages; simpl.
  - done.
  - destruct (executeToolCall a ctx w call) as [w1 [toolResult|err]].
    + specialize (IH w1 (messages ++ [toolMessage call toolResult])).
      destruct (executeToolCalls a ctx iteration rest w1 _)
        as [[[w2 messages2] evs] e].
      destruct IH as [Hpre He]. rewrite Hcons. split.
      * by apply prefix_cons.
      * destruct e as [err|].
        -- destruct He as (call' & cause & Hlast & ->). exists call', cause.
           split; [|done]. rewrite last_cons, Hlast. done.
        -- by rewrite He.
    + rewrite Hcons. split.
      * apply prefix_cons, prefix_nil.
      * by exists call, err.
Qed.

(** The loop makes at most as many model calls as it has iterations
    left. *)
Lemma Run_loop_within_budget fuel a ctx iteration w messages :
  (modelCallCount (events (Run_loop fuel a ctx iteration w messages))
   ≤ Z.to_nat (maxIterations a - iteration + 1))%nat.
Proof.
  revert iteration w messages.
  induction fuel as [|fuel IH]; intros iteration w messages; simpl.
  - case_bool_decide; [|destruct (createMaxIterationsResponse a w)]; simpl;
      unfold modelCallCount; simpl; lia.
  - case_bool_decide as Hle;
      [|destruct (createMaxIterationsResponse a w); simpl;
        unfold modelCallCount; simpl; lia].
    assert (∀ i req r, modelCallCount [EvModel i req r] = 1%nat) as Hone by done.
    destruct (CreateChatCompletion _ _ _) as [w1 [resp|err]];
      [|simpl; rewrite Hone; lia].
    destruct (Choices resp) as [|choice choices]; [simpl; rewrite Hone; lia|].
    destruct (ToolCalls (Message choice)) as [|toolCall rest];
      [simpl; rewrite Hone; lia|].
    pose proof (executeToolCalls_spec a ctx iteration (toolCall :: rest) w1
                  (messages ++ [Message choice])) as Hspec.
    destruct (executeToolCalls _ _ _ _ _ _) as [[[w2 messages2] evs] e].
    destruct Hspec as (Htools & _).
    destruct e as [err|]; cbn [events].
    + change (EvModel iteration ?r ?s :: evs) with ([EvModel iteration r s] ++ evs).
      rewrite modelCallCount_app, Hone, (modelCallCount_tools_only evs) by done. lia.
    + change (EvModel iteration ?r ?s :: evs ++ ?t)
        with ([EvModel iteration r s] ++ evs ++ t).
      rewrite !modelCallCount_app, Hone, (modelCallCount_tools_only evs) by done.
      specialize (IH (iteration + 1) w2 messages2). lia.
Qed.

(** [Run] always returns, after at most [maxIterations] calls of the
    model, and none when the budget is zero or negative. *)
Theorem Run_within_budget a ctx (userInput : string) w :
  let x := Run a ctx userInput w in
  is_Some (returned x)
  ∧ Z.of_nat (modelCallCount (events x)) ≤ Z.max 0 (maxIterations a).
Proof.
  split; [apply Run_returns|].
  pose proof (Run_loop_within_budget (Z.to_nat (maxIterations a)) a ctx 1 w
                (initialMessages a userInput)) as Hle.
  unfold Run. lia.
Qed.

Lemma Run_loop_response fuel a ctx iteration w messages resp :
  returned (Run_loop fuel a ctx iteration w messages) = Some (Ok resp) →
  (∃ choice choices,
     Choices resp = choice :: choices ∧ ToolCalls (Message choice) = [])
  ∧ ((∃ i req, last (events (Run_loop fuel a ctx iteration w messages))
               = Some (EvModel i req (Ok resp)))
     ∨ (∃ w', resp = (createMaxIterationsResponse a w').2)).
Proof.
  revert iteration w messages.
  induction fuel as [|fuel IH]; intros iteration w messages; simpl.
  - case_bool_decide; [done|].
    destruct (createMaxIterationsResponse a w) as [w1 resp0] eqn:E. simpl.
    intros [= <-].
    destruct (createMaxIterationsResponse_shape a w) as (choice & Hc & _ & Hn & _).
    rewrite E in Hc. simpl in Hc. split; [by eauto|].
    right. exists w. by rewrite E.
  - case_bool_decide.
    2:{ destruct (createMaxIterationsResponse a w) as [w1 resp0] eqn:E. simpl.
        intros [= <-].
        destruct (createMaxIterationsResponse_shape a w) as (choice & Hc & _ & Hn & _).
        rewrite E in Hc. simpl in Hc. split; [by eauto|].
        right. exists w. by rewrite E. }
    destruct (CreateChatCompletion _ _ _) as [w1 [resp'|err]]; [|done].
    destruct (Choices resp') as [|choice choices] eqn:Hchoices; [done|].
    destruct (ToolCalls (Message choice)) as [|toolCall rest] eqn:Hcalls.
    { simpl. intros [= <-]. split; [by eauto|]. left. by eauto. }
    destruct (executeToolCalls _ _ _ _ _ _) as [[[w2 messages2] evs] [err|]];
      [done|].
    cbn [events returned]. intros Hret.
    destruct (IH _ _ _ Hret) as [Hshape [(i & req & Hlast)|Hsynth]].
    + split; [done|]. left. exists i, req.
      change (EvModel iteration ?r ?s :: evs ++ ?t)
        with ((EvModel iteration r s :: evs) ++ t).
      by rewrite last_app, Hlast.
    + split; [done|]. by right.
Qed.

(** A response that [Run] returns has a first choice, and the message of
    that choice asks for no tool: it is either the last response of the
    model or the synthesized one. *)
Theorem Run_response_final a ctx (userInput : string) w resp :
  let x := Run a ctx userInput w in
  returned x = Some (Ok resp) →
  (∃ choice choices,
     Choices resp = choice :: choices ∧ ToolCalls (Message choice) = [])
  ∧ ((∃ i req, last (events x) = Some (EvModel i req (Ok resp)))
     ∨ (∃ w', resp = (createMaxIterationsResponse a w').2)).
Proof. apply Run_loop_response. Qed.

Lemma modelCallCount_cons_model i req r evs :
  modelCallCount (EvModel i req r :: evs) = S (modelCallCount evs).
Proof. done. Qed.

Lemma Run_loop_error fuel a ctx iteration w messages e :
  let x := Run_loop fuel a ctx iteration w messages in
  returned x = Some (Err e) →
  let i := iteration + Z.of_nat (modelCallCount (events x)) - 1 in
  iteration ≤ i ≤ maxIterations a
  ∧ ((∃ req cause, e = ErrAIResponse i cause
                   ∧ last (events x) = Some (EvModel i req (Err cause)))
     ∨ (∃ req resp, e = ErrNoChoices i
                    ∧ last (events x) = Some (EvModel i req (Ok resp))
                    ∧ Choices resp = [])
     ∨ (∃ call cause,
          e = ErrExecuteTool (ToolCallFunction_Name (ToolCall_Function call)) i cause
          ∧ last (events x) = Some (EvTool call (Err cause)))).
Proof.
  revert iteration w messages.
  induction fuel as [|fuel IH]; intros iteration w messages; simpl.
  - case_bool_decide; [done|]. by destruct (createMaxIterationsResponse a w).
  - case_bool_decide as Hle; [|by destruct (createMaxIterationsResponse a w)].
    destruct (CreateChatCompletion _ _ _) as [w1 [resp|err]].
    2:{ simpl. intros [= <-]. rewrite modelCallCount_cons_model.
        change (modelCallCount []) with 0%nat.
        replace (iteration + Z.of_nat 1 - 1) with iteration by lia.
        split; [lia|]. left. by eauto. }
    destruct (Choices resp) as [|choice choices] eqn:Hchoices.
    { simpl. intros [= <-]. rewrite modelCallCount_cons_model.
      change (modelCallCount []) with 0%nat.
      replace (iteration + Z.of_nat 1 - 1) with iteration by lia.
      split; [lia|]. right; left. by eauto. }
    destruct (ToolCalls (Message choice)) as [|toolCall rest] eqn:Hcalls; [done|].
    pose proof (executeToolCalls_spec a ctx iteration (toolCall :: rest) w1
                  (messages ++ [Message choice])) as Hspec.
    pose proof (executeToolCalls_events a ctx iteration (toolCall :: rest) w1
                  (messages ++ [Message choice])) as Hevents.
    destruct (executeToolCalls _ _ _ _ _ _) as [[[w2 messages2] evs] e'].
    destruct Hspec as (Htools & _). destruct Hevents as [_ He].
    destruct e' as [err|]; cbn [events returned].
    + intros [= <-]. destruct He as (call & cause & Hlast & ->).
      rewrite modelCallCount_cons_model, (modelCallCount_tools_only evs) by done.
      replace (iteration + Z.of_nat 1 - 1) with iteration by lia.
      split; [lia|]. right; right. exists call, cause. split; [done|].
      by rewrite last_cons, Hlast.
    + intros Hret. specialize (IH (iteration + 1) w2 messages2 Hret).
      cbv zeta in IH.
      change (EvModel iteration ?r ?s :: evs ++ ?t)
        with ((EvModel iteration r s :: evs) ++ t).
      rewrite modelCallCount_app, modelCallCount_cons_model,
        (modelCallCount_tools_only evs) by done.
      set (x' := Run_loop fuel a ctx (iteration + 1) w2 messages2) in *.
      replace (iteration + Z.of_nat (1 + modelCallCount (events x')) - 1)
        with (iteration + 1 + Z.of_nat (modelCallCount (events x')) - 1) by lia.
      destruct IH as [Hrange Hforms]. split; [lia|].
      destruct Hforms as [(req & cause & -> & Hlast)
                         |[(req & resp' & -> & Hlast & Hnone)
                          |(call & cause & -> & Hlast)]].
      * left. exists req, cause. split; [done|]. by rewrite last_app, Hlast.
      * right; left. exists req, resp'. split; [done|].
        split; [|done]. by rewrite last_app, Hlast.
      * right; right. exists call, cause. split; [done|].
        by rewrite last_app, Hlast.
Qed.

(** An error that [Run] returns carries the number of the iteration in
    which it arose, which is the number of model calls made; it is one
    of the three errors of the loop, and the external call that failed
    is the last one the run made: nothing is called after a failure. *)
Theorem Run_error_iteration a ctx (userInput : string) w e :
  let x := Run a ctx userInput w in
  returned x = Some (Err e) →
  let i := Z.of_nat (modelCallCount (events x)) in
  1 ≤ i ≤ maxIterations a
  ∧ ((∃ req cause, e = ErrAIResponse i cause
                   ∧ last (events x) = Some (EvModel i req (Err cause)))
     ∨ (∃ req resp, e = ErrNoChoices i
                    ∧ last (events x) = Some (EvModel i req (Ok resp))
                    ∧ Choices resp = [])
     ∨ (∃ call cause,
          e = ErrExecuteTool (ToolCallFunction_Name (ToolCall_Function call)) i cause
          ∧ last (events x) = Some (EvTool call (Err cause)))).
Proof.
  intros x Hret.
  pose proof (Run_loop_error (Z.to_nat (maxIterations a)) a ctx 1 w
                (initialMessages a userInput) e Hret) as Hloop.
  cbv zeta in Hloop. fold (Run a ctx userInput w) in Hloop. fold x in Hloop.
  replace (1 + Z.of_nat (modelCallCount (events x)) - 1)
    with (Z.of_nat (modelCallCount (events x))) in Hloop by lia.
  exact Hloop.
Qed.

Lemma take_cons_app_tools {A} (x : A) (l1 l2 : list A) k :
  (length l1 ≤ k)%nat →
  take (S k) (x :: l1 ++ l2) = (x :: l1) ++ take (k - length l1) l2.
Proof. intros Hk. simpl. f_equal. rewrite take_app. f_equal. by rewrite take_ge. Qed.

Lemma Run_loop_request fuel a ctx iteration w messages k i req res :
  let x := Run_loop fuel a ctx iteration w messages in
  events x !! k = Some (EvModel i req res) →
  i = iteration + Z.of_nat (modelCallCount (take k (events x)))
  ∧ Tools req = tools a
  ∧ Request_Model req = EmptyString
  ∧ Stream req = false
  ∧ messages `prefix_of` Messages req.
Proof.
  revert iteration w messages k.
  induction fuel as [|fuel IH]; intros iteration w messages k; simpl.
  - case_bool_decide; [|destruct (createMaxIterationsResponse a w)]; done.
  - case_bool_decide; [|by destruct (createMaxIterationsResponse a w)].
    set (req0 := {| Request_Model := EmptyString; Messages := messages;
                    Stream := false; Tools := tools a |}).
    assert (∀ r evs,
              (EvModel iteration req0 r :: evs) !! 0%nat = Some (EvModel i req res) →
              i = iteration
                  + Z.of_nat (modelCallCount (take 0 (EvModel iteration req0 r :: evs)))
              ∧ Tools req = tools a ∧ Request_Model req = EmptyString
              ∧ Stream req = false ∧ messages `prefix_of` Messages req) as Hfirst.
    { intros r evs [= <- <- <-]. simpl. unfold modelCallCount. simpl.
      split; [lia|done]. }
    destruct (CreateChatCompletion _ _ _) as [w1 [resp|err]].
    2:{ destruct k as [|k]; [apply Hfirst|done]. }
    destruct (Choices resp) as [|choice choices] eqn:Hchoices.
    { destruct k as [|k]; [apply Hfirst|done]. }
    destruct (ToolCalls (Message choice)) as [|toolCall rest] eqn:Hcalls.
    { destruct k as [|k]; [apply Hfirst|done]. }
    pose proof (executeToolCalls_spec a ctx iteration (toolCall :: rest) w1
                  (messages ++ [Message choice])) as Hspec.
    destruct (executeToolCalls _ _ _ _ _ _) as [[[w2 messages2] evs] e].
    destruct Hspec as (Htools & toolMessages & -> & _).
    assert (∀ k', evs !! k' ≠ Some (EvModel i req res)) as Hnomodel.
    { intros k' Hk'. apply list_elem_of_lookup_2 in Hk'.
      by apply not_elem_of_tools_only in Hk'. }
    destruct e as [err|]; cbn [events].
    + destruct k as [|k]; [apply Hfirst|]. simpl. intros Hk. by apply Hnomodel in Hk.
    + destruct k as [|k]; [apply Hfirst|]. simpl. intros Hk.
      destruct (decide (k < length evs)%nat) as [Hlt|Hge].
      { rewrite lookup_app_l in Hk by done. by apply Hnomodel in Hk. }
      rewrite lookup_app_r in Hk by lia.
      apply IH in Hk as (-> & Ht & Hm & Hs & Hpre).
      rewrite take_app, (take_ge evs) by lia.
      change (EvModel iteration ?r ?s :: evs ++ ?t)
        with ([EvModel iteration r s] ++ evs ++ t).
      rewrite !modelCallCount_app, (modelCallCount_tools_only evs) by done.
      change (modelCallCount [EvModel iteration req0 (Ok resp)]) with 1%nat.
      split; [lia|]. repeat (split; [done|]).
      etrans; [|exact Hpre]. rewrite <- app_assoc. by apply prefix_app_r.
Qed.

(** Every request [Run] sends carries the agent's tools and leaves the
    model name empty and streaming off, whatever model the agent was
    configured with; it is numbered by the model calls made before it,
    from 1; and its conversation starts with the system and the user
    message. *)
Theorem Run_requests a ctx (userInput : string) w k i req res :
  let x := Run a ctx userInput w in
  events x !! k = Some (EvModel i req res) →
  i = Z.of_nat (modelCallCount (take k (events x))) + 1
  ∧ Tools req = tools a
  ∧ Request_Model req = EmptyString
  ∧ Stream req = false
  ∧ initialMessages a userInput `prefix_of` Messages req.
Proof.
  intros x Hk.
  destruct (Run_loop_request _ _ _ _ _ _ _ _ _ _ Hk) as (-> & ? & ? & ? & ?).
  split; [fold (Run a ctx userInput w); fold x; lia|done].
Qed.

Lemma Run_loop_history fuel a ctx iteration w messages :
  let x := Run_loop fuel a ctx iteration w messages in
  messages `prefix_of` conversation x
  ∧ ∀ k i req res,
      events x !! k = Some (EvModel i req res) →
      Messages req `prefix_of` conversation x
      ∧ ∀ k' i' req' res',
          (k < k')%nat →
          events x !! k' = Some (EvModel i' req' res') →
          Messages req `prefix_of` Messages req'
          ∧ (length (Messages req) + 2 ≤ length (Messages req'))%nat.
Proof.
  revert iteration w messages.
  induction fuel as [|fuel IH]; intros iteration w messages; simpl.
  - case_bool_decide; [|destruct (createMaxIterationsResponse a w)]; done.
  - case_bool_decide; [|by destruct (createMaxIterationsResponse a w)].
    set (req0 := {| Request_Model := EmptyString; Messages := messages;
                    Stream := false; Tools := tools a |}).
    assert (∀ r conv,
              messages `prefix_of` conv →
              messages `prefix_of` conv
              ∧ ∀ k i req res,
                  [EvModel iteration req0 r] !! k = Some (EvModel i req res) →
                  Messages req `prefix_of` conv
                  ∧ ∀ k' i' req' res',
                      (k < k')%nat →
                      [EvModel iteration req0 r] !! k' = Some (EvModel i' req' res') →
                      Messages req `prefix_of` Messages req'
                      ∧ (length (Messages req) + 2 ≤ length (Messages req'))%nat)
      as Hsingle.
    { intros r conv Hconv. split; [done|]. intros [|k] i req res Hk; [|done].
      simpl in Hk. injection Hk as <- <- <-. split; [done|].
      intros [|k'] i' req' res' Hlt Hk'; [lia|done]. }
    destruct (CreateChatCompletion _ _ _) as [w1 [resp|err]]; [|by apply Hsingle].
    destruct (Choices resp) as [|choice choices] eqn:Hchoices; [by apply Hsingle|].
    destruct (ToolCalls (Message choice)) as [|toolCall rest] eqn:Hcalls.
    { apply Hsingle. by apply prefix_app_r. }
    pose proof (executeToolCalls_spec a ctx iteration (toolCall :: rest) w1
                  (messages ++ [Message choice])) as Hspec.
    destruct (executeToolCalls _ _ _ _ _ _) as [[[w2 messages2] evs] e].
    destruct Hspec as (Htools & toolMessages & -> & He).
    assert (∀ k' i' req' res', evs !! k' ≠ Some (EvModel i' req' res')) as Hnomodel.
    { intros k' i' req' res' Hk'. apply list_elem_of_lookup_2 in Hk'.
      by apply not_elem_of_tools_only in Hk'. }
    assert (messages `prefix_of` (messages ++ [Message choice]) ++ toolMessages)
      as Hgrow by (rewrite <- app_assoc; by apply prefix_app_r).
    destruct e as [err|]; cbn [events conversation].
    + split; [done|]. intros [|k] i req res Hk.
      * simpl in Hk. injection Hk as <- <- <-. split; [done|].
        intros [|k'] i' req' res' Hlt Hk'; [lia|]. simpl in Hk'.
        by apply Hnomodel in Hk'.
      * simpl in Hk. by apply Hnomodel in Hk.
    + destruct He as (Hans & _ & _). apply Forall2_length in Hans. simpl in Hans.
      destruct (IH (iteration + 1) w2 ((messages ++ [Message choice]) ++ toolMessages))
        as [Hconv Hreqs].
      set (x' := Run_loop fuel a ctx (iteration + 1) w2
                   ((messages ++ [Message choice]) ++ toolMessages)) in *.
      assert (∀ k' i' req' res',
                (evs ++ events x') !! k' = Some (EvModel i' req' res') →
                (length evs ≤ k')%nat
                ∧ events x' !! (k' - length evs)%nat = Some (EvModel i' req' res'))
        as Hshift.
      { intros k' i' req' res' Hk'.
        destruct (decide (k' < length evs)%nat) as [Hlt|Hge].
        - rewrite lookup_app_l in Hk' by done. by apply Hnomodel in Hk'.
        - rewrite lookup_app_r in Hk' by lia. split; [lia|done]. }
      split; [by etrans|]. intros [|k] i req res Hk.
      * simpl in Hk. injection Hk as <- <- <-. split; [by etrans|].
        intros [|k'] i' req' res' Hlt Hk'; [lia|]. simpl in Hk'.
        apply Hshift in Hk' as [_ Hk'].
        pose proof (Run_loop_request _ _ _ _ _ _ _ _ _ _ Hk') as (_ & _ & _ & _ & Hpre).
        split; [by etrans|]. apply prefix_length in Hpre.
        rewrite !length_app in Hpre. simpl in *. lia.
      * simpl in Hk. apply Hshift in Hk as [Hge Hk].
        destruct (Hreqs _ _ _ _ Hk) as [Hc Hpairs]. split; [done|].
        intros [|k'] i' req' res' Hlt Hk'; [lia|]. simpl in Hk'.
        apply Hshift in Hk' as [Hge' Hk']. eapply Hpairs; [|exact Hk']. lia.
Qed.

(** The conversation only grows. What a request carried is a prefix of
    what every later request of the run carries, which is longer by at
    least two messages, and of the conversation [Run] ends with: the loop
    never drops or rewrites history. *)
Theorem Run_history_append_only a ctx (userInput : string) w k i req res :
  let x := Run a ctx userInput w in
  events x !! k = Some (EvModel i req res) →
  Messages req `prefix_of` conversation x
  ∧ ∀ k' i' req' res',
      (k < k')%nat →
      events x !! k' = Some (EvModel i' req' res') →
      Messages req `prefix_of` Messages req'
      ∧ (length (Messages req) + 2 ≤ length (Messages req'))%nat.
Proof.
  intros x Hk.
  destruct (Run_loop_history (Z.to_nat (maxIterations a)) a ctx 1 w
              (initialMessages a userInput)) as [_ Hreqs].
  by apply Hreqs in Hk.
Qed.





End agent_more.

(** ** Executing one tool call *)

Section executeToolCall_more.
Context `{!Externals}.

Implicit Types (a : Agent) (ctx : Ctx) (w : World) (toolCall : ToolCall).

(** A call whose arguments are in order but whose tool the registry does
    not know, or whose tool the registry routes to a server the pool
    does not hold, fails before any backend is called: the world is left
    as it was, and the error tells which of the two lookups failed. *)
Theorem executeToolCall_unroutable a ctx w toolCall :
  let toolName0 := ToolCallFunction_Name (ToolCall_Function toolCall) in
  wellFormedArguments toolCall →
  (toolServerMap (toolManager a) !! toolName0 = None →
     executeToolCall a ctx w toolCall = (w, Err (ErrNoServer toolName0)))
  ∧ (∀ serverName,
       toolServerMap (toolManager a) !! toolName0 = Some serverName →
       servers (McpManager (blaxelClient a)) !! serverName = None →
       executeToolCall a ctx w toolCall
       = (w, Err (ErrCallTool toolName0 (ErrServerNotFound serverName)))).
Proof.
  intros toolName0 Hargs. unfold executeToolCall, GetServerForTool, CallTool.
  fold toolName0.
  assert (∃ params,
            (if bool_decide
                  (ToolCallFunction_Arguments (ToolCall_Function toolCall) ≠ EmptyString)
             then json_Unmarshal (ToolCallFunction_Arguments (ToolCall_Function toolCall))
             else Ok JNull) = Ok params) as [params ->].
  { destruct Hargs as [Hempty|[params Hparse]].
    - exists JNull. rewrite bool_decide_eq_false_2; [done|]. by intros [].
    - case_bool_decide; by eauto. }
  split.
  - by intros ->.
  - intros serverName -> Hmissing. by rewrite Hmissing.
Qed.

(** A tool call succeeds only through one backend call: its arguments
    are empty (nil parameters) or parse, the registry routes its tool to
    a server the pool holds, that server's client executes the call with
    these parameters, and the returned text is the encoding of the
    content of the result. *)
Theorem executeToolCall_Ok_inv a ctx w toolCall w' content :
  let arguments := ToolCallFunction_Arguments (ToolCall_Function toolCall) in
  let toolName0 := ToolCallFunction_Name (ToolCall_Function toolCall) in
  executeToolCall a ctx w toolCall = (w', Ok content) →
  ∃ params serverName client toolResult,
    ((arguments = EmptyString ∧ params = JNull)
     ∨ (arguments ≠ EmptyString ∧ json_Unmarshal arguments = Ok params))
    ∧ GetServerForTool (toolManager a) toolName0 = (serverName, true)
    ∧ servers (McpManager (blaxelClient a)) !! serverName = Some client
    ∧ MCPClient_CallTool w ctx client toolName0 params = (w', Ok toolResult)
    ∧ json_Marshal_content (CallToolResult_Content toolResult) = Ok content.
Proof.
  intros arguments toolName0. unfold executeToolCall, CallTool.
  fold arguments toolName0.
  destruct (bool_decide (arguments ≠ EmptyString)) eqn:Hne.
  - apply bool_decide_eq_true in Hne.
    destruct (json_Unmarshal arguments) as [params|err] eqn:Hparse; [|done].
    destruct (GetServerForTool (toolManager a) toolName0) as [serverName [|]]; [|done].
    destruct (servers (McpManager (blaxelClient a)) !! serverName) as [client|] eqn:Hs;
      [|done].
    destruct (MCPClient_CallTool w ctx client toolName0 params)
      as [w1 [toolResult|err]] eqn:Hcall; [|done].
    destruct (json_Marshal_content _) as [content'|err] eqn:Hm; [|done].
    intros [= <- <-]. exists params, serverName, client, toolResult.
    split; [by right|done].
  - apply bool_decide_eq_false in Hne.
    assert (arguments = EmptyString) as Hempty by (by destruct (decide (arguments = EmptyString))).
    destruct (GetServerForTool (toolManager a) toolName0) as [serverName [|]]; [|done].
    destruct (servers (McpManager (blaxelClient a)) !! serverName) as [client|] eqn:Hs;
      [|done].
    destruct (MCPClient_CallTool w ctx client toolName0 JNull)
      as [w1 [toolResult|err]] eqn:Hcall; [|done].
    destruct (json_Marshal_content _) as [content'|err] eqn:Hm; [|done].
    intros [= <- <-]. exists JNull, serverName, client, toolResult.
    split; [by left|done].
Qed.

End executeToolCall_more.

(** ** The model gateway *)

Section gateway_more.
Context `{!Externals, !Runtime}.

Implicit Types (c : Client) (w : World) (req : ChatCompletionRequest).

(** [CreateChatCompletion] returns a response only when the request
    encoded, the HTTP call returned, its body could be read, its status
    was 200 and the body decoded to that response. *)
Theorem CreateChatCompletion_Ok_inv c w req w' resp :
  CreateChatCompletion c w req = (w', Ok resp) →
  ∃ jsonData httpResp body,
    json_Marshal_request req = Ok jsonData
    ∧ BlaxelClient_Run w (Workspace c) (Client_Model c) (Debug c) jsonData
      = (w', Ok httpResp)
    ∧ Body httpResp = Ok body
    ∧ StatusCode httpResp = 200
    ∧ json_Unmarshal_response body = Ok resp.
Proof.
  unfold CreateChatCompletion.
  destruct (json_Marshal_request req) as [jsonData|err] eqn:Hm; [|done].
  destruct (BlaxelClient_Run _ _ _ _ _) as [w1 [httpResp|err]] eqn:Hrun; [|done].
  destruct (Body httpResp) as [body|err] eqn:Hbody; [|done].
  case_bool_decide as Hstatus.
  { by destruct (json_Unmarshal_error_message body). }
  destruct (json_Unmarshal_response body) as [chatResp|err] eqn:Hdec; [|done].
  intros [= <- <-]. exists jsonData, httpResp, body.
  repeat split; done.
Qed.

(** A request that does not encode is never sent: the world is left as
    it was. An answer whose status is not 200 is an error even when its
    body would decode as a response: the message of the upstream error
    when the body decodes as one, the status and the raw body
    otherwise. *)
Theorem CreateChatCompletion_failures c w req :
  (∀ err, json_Marshal_request req = Err err →
     CreateChatCompletion c w req = (w, Err (ErrMarshalRequest err)))
  ∧ (∀ jsonData w' httpResp body,
       json_Marshal_request req = Ok jsonData →
       BlaxelClient_Run w (Workspace c) (Client_Model c) (Debug c) jsonData
       = (w', Ok httpResp) →
       Body httpResp = Ok body →
       StatusCode httpResp ≠ 200 →
       CreateChatCompletion c w req
       = (w', Err (match json_Unmarshal_error_message body with
                   | Ok message => ErrAPI message
                   | Err _ => ErrAPIStatus (StatusCode httpResp) body
                   end))).
Proof.
  unfold CreateChatCompletion. split.
  - by intros err ->.
  - intros jsonData w' httpResp body -> -> -> Hstatus.
    rewrite bool_decide_eq_true_2 by done.
    by destruct (json_Unmarshal_error_message body).
Qed.

(** [CreateSimpleCompletion] sends one user message and no tools. It
    returns a text only when the gateway returned a response with a
    choice, and the text is the content of the first choice; an error of
    the gateway is passed on as it is, and a response without choices is
    an error of its own. *)
Theorem CreateSimpleCompletion_spec c w (prompt : string) :
  let req :=
    {| Request_Model := EmptyString;
       Messages := [ {| Role := "user"; Content := prompt; ToolCalls := [];
                        ToolCallId := EmptyString |} ];
       Stream := false; Tools := [] |} in
  let '(w', out) := CreateSimpleCompletion c w prompt in
  w' = (CreateChatCompletion c w req).1
  ∧ (∀ text, out = inr text ↔
       ∃ resp choice choices,
         (CreateChatCompletion c w req).2 = Ok resp
         ∧ Choices resp = choice :: choices
         ∧ text = Content (Message choice))
  ∧ (∀ err, (CreateChatCompletion c w req).2 = Err err → out = inl (Unwrapped err))
  ∧ (∀ resp, (CreateChatCompletion c w req).2 = Ok resp → Choices resp = [] →
       out = inl ErrNoChoicesReturned
       ∧ wrappedError_Error ErrNoChoicesReturned = "no choices returned in response").
Proof.
  intros req. unfold CreateSimpleCompletion. fold req.
  destruct (CreateChatCompletion c w req) as [w1 [resp|err]]; simpl.
  - destruct (Choices resp) as [|choice choices] eqn:Hchoices.
    + split; [done|]. split; [|split]; [|done|done].
      intros text. split; [done|].
      intros (resp' & choice & choices & [= <-] & Hc & _). congruence.
    + split; [done|]. split; [|split]; [|done|].
      * intros text. split.
        -- intros [= <-]. by exists resp, choice, choices.
        -- intros (resp' & choice' & choices' & [= <-] & Hc & ->).
           rewrite Hchoices in Hc. by injection Hc as <- <-.
      * intros resp' [= <-] Hnone. congruence.
  - split; [done|]. split; [|split]; [|by intros err' [= <-]|done].
    intros text. split; [done|]. by intros (resp & ? & ? & ? & _).
Qed.

End gateway_more.

(** ** The MCP server pool, continued *)

Set Warnings "-clear-no-such-hyp".

Section pool_more.
Context `{!Externals, !Runtime}.

Implicit Types (m : MCPManager) (w : World) (config : MCPServerConfig).

(** [AddServer] either fails and leaves the manager as it was, or
    registers the new client under the configured name, replacing a
    client already registered under that name and touching no other
    entry: the pool then has one server more exactly when the name was
    new, and [CallTool] under that name reaches the new client. *)
Theorem AddServer_spec m config w :
  let name0 := MCPServerConfig_Name config in
  let '(w', m', err) := AddServer m config w in
  match NewMCPClient w (MCPServerConfig_URL config) (headers m) with
  | (w1, Err cause) =>
      w' = w1 ∧ m' = m ∧ err = Some (ErrCreateMCPClient name0 cause)
  | (w1, Ok client) =>
      w' = w1 ∧ err = None
      ∧ headers m' = headers m
      ∧ servers m' !! name0 = Some client
      ∧ (∀ other, other ≠ name0 → servers m' !! other = servers m !! other)
      ∧ GetServerCount m'
        = GetServerCount m + (if servers m !! name0 is Some _ then 0 else 1)
      ∧ (∀ ctx w0 toolName0 params,
           CallTool m' ctx w0 name0 toolName0 params
           = MCPClient_CallTool w0 ctx client toolName0 params)
  end.
Proof.
  intros name0. unfold AddServer. fold name0.
  destruct (NewMCPClient w (MCPServerConfig_URL config) (headers m))
    as [w1 [client|cause]]; [|done].
  simpl. split; [done|]. split; [done|]. split; [done|].
  split; [by rewrite lookup_insert_eq|].
  split; [by intros other Hne; rewrite lookup_insert_ne|]. split.
  - unfold GetServerCount. simpl.
    destruct (servers m !! name0) as [old|] eqn:Hold.
    + rewrite <- (insert_delete_id (servers m) name0 old) at 2 by done.
      rewrite <- (insert_delete_eq (servers m)).
      rewrite !map_size_insert_None by apply lookup_delete_eq. lia.
    + rewrite map_size_insert_None by done. lia.
  - intros ctx w0 toolName0 params. unfold CallTool. simpl.
    by rewrite lookup_insert_eq.
Qed.






Lemma GetServerNames_spec m w :
  let names := (GetServerNames m w).2 in
  names ≡ₚ (map_to_list (servers m)).*1
  ∧ NoDup names
  ∧ (∀ name0, name0 ∈ names ↔ is_Some (servers m !! name0))
  ∧ Z.of_nat (length names) = GetServerCount m.
Proof.
  unfold GetServerNames, GetServerCount.
  pose proof (range_servers_perm w (servers m)) as Hperm.
  destruct (range_servers w (servers m)) as [w0 order]. simpl in *.
  assert (order.*1 ≡ₚ (map_to_list (servers m)).*1) as Hnames by (by rewrite Hperm).
  split; [done|]. split; [|split].
  - rewrite Hnames. apply NoDup_fst_map_to_list.
  - intros name0. rewrite Hnames. split.
    + intros ([n c] & -> & Hin)%list_elem_of_fmap.
      apply elem_of_map_to_list in Hin. by eauto.
    + intros [c Hc]. apply list_elem_of_fmap. exists (name0, c).
      split; [done|]. by apply elem_of_map_to_list.
  - rewrite Hnames, length_fmap, length_map_to_list. done.
Qed.



End pool_more.

(** ** Handlers *)

Section router_properties.
Context `{!Externals, !Runtime}.

Implicit Types (blaxelClient : Client) (c : Ctx) (w : World).

(** [readinessCheck] answers 503 exactly when the pool holds no server,
    and otherwise 200 with the number of servers, which is at least
    one. *)
Theorem readinessCheck_spec blaxelClient :
  let m := McpManager blaxelClient in
  ((readinessCheck blaxelClient).1 = StatusServiceUnavailable ↔ servers m = ∅)
  ∧ (servers m = ∅ →
       readinessCheck blaxelClient
       = (503, H_not_ready "not ready" "no MCP servers available"))
  ∧ (servers m ≠ ∅ →
       readinessCheck blaxelClient
       = (200, H_ready "ready" (Z.of_nat (size (servers m))))
       ∧ 1 ≤ Z.of_nat (size (servers m))).
Proof.
  intros m. unfold readinessCheck, GetServerCount. fold m.
  destruct (decide (servers m = ∅)) as [Hempty|Hne].
  - rewrite Hempty, map_size_empty. simpl. by repeat split.
  - assert (size (servers m) ≠ 0%nat) as Hsize by (by rewrite map_size_empty_iff).
    rewrite bool_decide_eq_false_2 by lia. simpl. split; [|split]; [done|done|].
    intros _. split; [done|lia].
Qed.

(** [listMCPServers] always answers 200 with every registered server
    named once, and a count equal to the number of names. *)
Theorem listMCPServers_spec blaxelClient w :
  ∃ names,
    (listMCPServers blaxelClient w).2
    = (200, H_servers names (Z.of_nat (length names)))
    ∧ NoDup names
    ∧ ∀ name0, name0 ∈ names ↔ is_Some (servers (McpManager blaxelClient) !! name0).
Proof.
  unfold listMCPServers.
  pose proof (GetServerNames_spec (McpManager blaxelClient) w) as Hnames.
  destruct (GetServerNames (McpManager blaxelClient) w) as [w1 names].
  simpl in Hnames. destruct Hnames as (_ & Hnd & Hin & Hcount).
  exists names. simpl. by rewrite Hcount.
Qed.

Lemma ListAllTools_err_nil (m : MCPManager) c w :
  (ListAllTools m c w).1.2.2 = None.
Proof.
  unfold ListAllTools. destruct (range_servers w (servers m)) as [w0 order].
  by destruct (ListAllTools_range c order w0 []) as [[w1 allTools] evs].
Qed.

(** Every entry of the catalog names a server of the pool. *)
Lemma ListAllTools_servers_registered (m : MCPManager) c w e :
  e ∈ (ListAllTools m c w).1.2.1 → is_Some (servers m !! ServerName e).
Proof.
  unfold ListAllTools.
  pose proof (range_servers_perm w (servers m)) as Hperm.
  destruct (range_servers w (servers m)) as [w0 order]. simpl in Hperm.
  destruct (ListAllTools_range_spec c order w0 []) as (outcomes & Hev & Hfst & Htools).
  destruct (ListAllTools_range c order w0 []) as [[w1 allTools] evs].
  simpl in *. rewrite Htools, Hev. intros (tools0 & Hin & _)%elem_of_listed.
  assert (ServerName e ∈ outcomes.*1) as Hname.
  { apply list_elem_of_fmap. by exists (ServerName e, Ok tools0). }
  rewrite Hfst, Hperm in Hname.
  apply list_elem_of_fmap in Hname as ([n cl] & -> & Hmap).
  apply elem_of_map_to_list in Hmap. by eauto.
Qed.

(** [listServerTools] answers 404 for a server the pool does not hold.
    When it answers 200 the server is registered, the tools are those
    the catalog lists under its name, and the count is their number,
    which is at least one. *)
Theorem listServerTools_spec blaxelClient c (serverName : string) w :
  let allTools := (ListAllTools (McpManager blaxelClient) c w).1.2.1 in
  (servers (McpManager blaxelClient) !! serverName = None →
     (listServerTools blaxelClient c serverName w).2
     = JSON 404 (H_server_not_found "server not found or has no tools" serverName))
  ∧ (∀ status body,
       (listServerTools blaxelClient c serverName w).2 = JSON status body →
       status = 200 →
       is_Some (servers (McpManager blaxelClient) !! serverName)
       ∧ ∃ tools0,
           body = H_server_tools serverName tools0 (Z.of_nat (length tools0))
           ∧ (1 ≤ length tools0)%nat
           ∧ ∀ tool, tool ∈ tools0 ↔
               {| ToolWithServer_Tool := tool; ServerName := serverName |} ∈ allTools).
Proof.
  intros allTools.
  pose proof (ListAllTools_servers_registered (McpManager blaxelClient) c w) as Hreg.
  pose proof (ListAllTools_err_nil (McpManager blaxelClient) c w) as Herr.
  fold allTools in Hreg. unfold listServerTools. subst allTools.
  destruct (ListAllTools (McpManager blaxelClient) c w) as [[w1 [allTools err]] evs].
  simpl in *. subst err.
  set (serverTools := ToolWithServer_Tool <$>
         filter (λ toolWithServer, ServerName toolWithServer = serverName) allTools).
  assert (∀ tool, tool ∈ serverTools ↔
            {| ToolWithServer_Tool := tool; ServerName := serverName |} ∈ allTools)
    as Hmem.
  { intros tool. unfold serverTools. rewrite list_elem_of_fmap. split.
    - intros ([t s] & -> & [Hs Hin]%list_elem_of_filter). simpl in *. by subst s.
    - intros Hin. exists {| ToolWithServer_Tool := tool; ServerName := serverName |}.
      split; [done|]. by apply list_elem_of_filter. }
  split.
  - intros Hnone. rewrite bool_decide_eq_true_2; [done|].
    destruct serverTools as [|tool rest] eqn:E; [done|]. exfalso.
    assert (tool ∈ tool :: rest) as Hin by left.
    apply Hmem, Hreg in Hin. simpl in Hin. rewrite Hnone in Hin. by destruct Hin.
  - intros status body. case_bool_decide as Hlen.
    { intros [= <- <-]. done. }
    intros [= <- <-] _.
    destruct serverTools as [|tool rest] eqn:E; [done|]. split.
    + assert (tool ∈ tool :: rest) as Hin by left.
      apply Hmem, Hreg in Hin. done.
    + exists (tool :: rest). split; [done|]. split; [simpl; lia|]. exact Hmem.
Qed.

End router_properties.

(** ** The agent handlers *)

Section agent_handlers.
Context `{!Externals, !Runtime}.

Implicit Types (bc : Client) (c : Ctx) (w : World).
Implicit Types (request : AgentRequest).

(** What [configureAgent] builds. *)
Lemma configureAgent_agent (agentName : string) bc c request w :
  let listing := ListAllTools (McpManager bc) c w in
  ∃ agent0,
    configureAgent agentName bc c request w
    = (listing.1.1, inl agent0, listing.2)
    ∧ name agent0 = agentName
    ∧ blaxelClient agent0 = bc
    ∧ maxIterations agent0
      = (if bool_decide (AgentRequest_MaxIterations request ≤ 0) then 10
         else AgentRequest_MaxIterations request)
    ∧ systemPrompt agent0
      = (if bool_decide (AgentRequest_SystemPrompt request = EmptyString)
         then handlerSystemPrompt else AgentRequest_SystemPrompt request)
    ∧ model agent0
      = (if bool_decide (AgentRequest_Model request = EmptyString)
         then handlerModel else AgentRequest_Model request)
    ∧ tools agent0 = convertedTool <$> listing.1.2.1
    ∧ toolManager agent0 = (ConvertMCPToolsToOpenAI NewToolManager listing.1.2.1).2.
Proof.
  intros listing. unfold configureAgent.
  pose proof (ListAllTools_err_nil (McpManager bc) c w) as Herr.
  fold listing in Herr |- *.
  destruct listing as [[w1 [mcpTools err]] evs]. simpl in Herr. subst err.
  simpl. unfold ConvertMCPToolsToOpenAI.
  pose proof (ConvertMCPToolsToOpenAI_range_tools mcpTools ∅ []) as Htools.
  destruct (ConvertMCPToolsToOpenAI_range mcpTools ∅ []) as [tm tools0].
  simpl in *. eexists. split; [reflexivity|]. simpl.
  split; [done|]. split; [done|]. split; [done|]. split.
  - destruct (bool_decide (AgentRequest_SystemPrompt request = EmptyString)) eqn:Hb.
    + by rewrite bool_decide_eq_false_2 by (by unfold handlerSystemPrompt).
    + apply bool_decide_eq_false in Hb. by rewrite bool_decide_eq_false_2.
  - split; [done|]. split; [exact Htools|done].
Qed.

Lemma modelCallCount_listing (m : MCPManager) c w :
  modelCallCount (ListAllTools m c w).2 = 0%nat.
Proof.
  unfold ListAllTools. destruct (range_servers w (servers m)) as [w0 order].
  destruct (ListAllTools_range_spec c order w0 []) as (outcomes & Hev & _).
  destruct (ListAllTools_range c order w0 []) as [[w1 allTools] evs].
  simpl in *. rewrite Hev. clear.
  induction outcomes as [|[s r] outcomes IH]; [done|]. exact IH.
Qed.

(** The agent a handler builds can route every tool it offers to the
    model: the registry knows the tool's name, and the server it names
    is in the pool. Building it never fails. *)
Theorem configureAgent_routable (agentName : string) bc c request w :
  ∃ agent0 w1 evs,
    configureAgent agentName bc c request w = (w1, inl agent0, evs)
    ∧ ∀ t, t ∈ tools agent0 →
        ∃ serverName client,
          GetServerForTool (toolManager agent0) (Function_Name (Tool_Function t))
          = (serverName, true)
          ∧ servers (McpManager (blaxelClient agent0)) !! serverName = Some client.
Proof.
  destruct (configureAgent_agent agentName bc c request w)
    as (agent0 & Heq & _ & Hclient & _ & _ & _ & Htools & Htm).
  exists agent0. do 2 eexists. split; [exact Heq|].
  intros t Ht. rewrite Htools in Ht.
  apply list_elem_of_fmap in Ht as (e & -> & He). simpl.
  set (mcpTools := (ListAllTools (McpManager bc) c w).1.2.1) in *.
  unfold GetServerForTool. rewrite Htm. unfold ConvertMCPToolsToOpenAI.
  pose proof (ConvertMCPToolsToOpenAI_range_map mcpTools ∅ []
                (McpTool_Name (ToolWithServer_Tool e))) as Hmap.
  destruct (ConvertMCPToolsToOpenAI_range mcpTools ∅ []) as [tm tools0].
  simpl in *. rewrite Hmap.
  destruct (last (filter (λ e0, toolName e0 = McpTool_Name (ToolWithServer_Tool e))
                    mcpTools)) as [e'|] eqn:Hlast.
  - apply last_Some_elem_of, list_elem_of_filter in Hlast as [_ Hin].
    apply ListAllTools_servers_registered in Hin as [client Hc].
    exists (ServerName e'), client. by rewrite Hclient.
  - exfalso. apply last_None in Hlast.
    assert (e ∈ filter (λ e0, toolName e0 = McpTool_Name (ToolWithServer_Tool e))
                 mcpTools) as Hin by (by apply list_elem_of_filter).
    rewrite Hlast in Hin. by apply not_elem_of_nil in Hin.
Qed.

(** [runAgent] answers a body that does not bind with 400, before any
    external call. Otherwise it runs the agent, with a budget of 10 when
    the request gives none or a non-positive one, so that the model is
    called at least once and at most budget times; it answers 200 with a
    response whose first choice asks for no tool, or 500 with the error
    of the run. It has no other outcome. *)
Theorem runAgent_outcomes bc c w :
  (∀ err,
     runAgent bc c (Err err) w
     = (w, AbortedWithStatus (ErrInvalidRequest err) 400, []))
  ∧ ∀ request,
      let '(_, handled, evs) := runAgent bc c (Ok request) w in
      let budget :=
        if bool_decide (AgentRequest_MaxIterations request ≤ 0) then 10
        else AgentRequest_MaxIterations request in
      1 ≤ Z.of_nat (modelCallCount evs) ≤ budget
      ∧ ((∃ resp choice choices,
            handled = RespondedJSON 200 resp
            ∧ Choices resp = choice :: choices
            ∧ ToolCalls (Message choice) = [])
         ∨ (∃ err, handled = AbortedWithStatus (ErrAgentExecution err) 500)).
Proof.
  split; [done|]. intros request. unfold runAgent.
  destruct (configureAgent_agent "demo-agent" bc c request w)
    as (agent0 & -> & _ & _ & Hmax & _).
  set (w1 := (ListAllTools (McpManager bc) c w).1.1).
  set (x := Run agent0 c (Inputs request) w1).
  assert (1 ≤ maxIterations agent0) as Hpos by (rewrite Hmax; case_bool_decide; lia).
  pose proof (Run_calls_model agent0 c (Inputs request) w1 Hpos) as Hlow.
  pose proof (Run_loop_within_budget (Z.to_nat (maxIterations agent0)) agent0 c 1 w1
                (initialMessages agent0 (Inputs request))) as Hhigh.
  pose proof (Run_returns agent0 c (Inputs request) w1) as [r Hr].
  fold (Run agent0 c (Inputs request) w1) in Hhigh. fold x in Hlow, Hhigh, Hr.
  rewrite Hr.
  assert (1 ≤ Z.of_nat (modelCallCount ((ListAllTools (McpManager bc) c w).2 ++ events x))
          ≤ (if bool_decide (AgentRequest_MaxIterations request ≤ 0) then 10
             else AgentRequest_MaxIterations request)) as Hcount.
  { rewrite modelCallCount_app, modelCallCount_listing, <- Hmax. lia. }
  destruct r as [resp|err]; (split; [exact Hcount|]).
  - left. destruct (Run_loop_response _ _ _ _ _ _ _ Hr) as [(choice & choices & ? & ?) _].
    by exists resp, choice, choices.
  - right. by exists err.
Qed.

(** [streamAgent] answers a body that does not bind with 400, before
    any external call. Otherwise it builds the agent and runs it on the
    request's input in the world the tool listing left, and what it does
    is decided by what that run returns: for a response, it writes,
    piece by piece, the content of the message of the first choice of
    that response; for an error, it answers 500 with the text of that
    error. It never answers "No response generated": a response from
    [Run] always has a choice. The external calls it makes are those of
    the listing followed by those of the run. *)
Theorem streamAgent_outcomes bc c w :
  (∀ err,
     streamAgent bc c (Err err) w
     = (w, AbortedWithStatus (ErrInvalidRequest err) 400, []))
  ∧ ∀ request,
      ∃ agent0 w1 evs1,
        configureAgent "streaming-agent" bc c request w = (w1, inl agent0, evs1)
        ∧ let x := Run agent0 c (Inputs request) w1 in
          let '(w', handled, evs) := streamAgent bc c (Ok request) w in
          w' = final_world x
          ∧ evs = evs1 ++ events x
          ∧ handled ≠ RespondedString 500 "No response generated"
          ∧ match returned x with
            | Some (Ok resp) =>
                ∃ choice choices,
                  Choices resp = choice :: choices
                  ∧ handled = Streamed (range_runes (Content (Message choice)))
            | Some (Err err) =>
                handled = RespondedString 500 ("Error: " +:+ Error err)
            | None => False
            end.
Proof.
  split; [done|]. intros request. unfold streamAgent.
  destruct (configureAgent_agent "streaming-agent" bc c request w)
    as (agent0 & Hcfg & _).
  exists agent0. do 2 eexists. split; [exact Hcfg|]. rewrite Hcfg.
  set (w1 := (ListAllTools (McpManager bc) c w).1.1).
  pose proof (Run_returns agent0 c (Inputs request) w1) as [r Hr].
  cbv zeta. rewrite Hr. destruct r as [resp|err].
  - destruct (Run_loop_response _ _ _ _ _ _ _ Hr) as [(choice & choices & Hc & Hn) _].
    rewrite Hc. split; [done|]. split; [done|]. split; [done|].
    by exists choice, choices.
  - split; [done|]. split; [done|]. split; [by intros [= ?]|done].
Qed.

End agent_handlers.

(** ** The logger *)

Section logger_properties.
Context `{!Externals, !Runtime}.

Lemma LogLevel_String_cases (l : Z) :
  (l = 0 ∧ LogLevel_String l = "TRACE")
  ∨ (l = 1 ∧ LogLevel_String l = "DEBUG")
  ∨ (l = 2 ∧ LogLevel_String l = "INFO")
  ∨ (l = 3 ∧ LogLevel_String l = "WARNING")
  ∨ (l = 4 ∧ LogLevel_String l = "ERROR")
  ∨ (l = 5 ∧ LogLevel_String l = "FATAL")
  ∨ (¬ (0 ≤ l ≤ 5) ∧ LogLevel_String l = "UNKNOWN").
Proof.
  unfold LogLevel_String, TRACE, DEBUG, INFO, WARNING, ERROR, FATAL.
  repeat case_bool_decide; subst; try lia; naive_solver lia.
Qed.


(** [ColoredFormatter.Format] never panics, whatever the level and the
    color table: no level name is longer than the seven characters it
    pads to. The line is the color, the level name, the reset code and a
    colon, the padding, a space and the message; name and padding
    together are seven characters wide. With the table of
    [NewColoredFormatter] the color is the reset code exactly for a
    level that is none of the six. *)
Theorem ColoredFormatter_Format_total (cf : ColoredFormatter) (l : Z)
    (message : string) :
  ∃ color pad,
    ColoredFormatter_Format cf l message
    = Some (color +:+ LogLevel_String l +:+ ESC +:+ "[0m:" +:+ pad +:+ " " +:+ message)
    ∧ (String.length (LogLevel_String l) + String.length pad = 7)%nat
    ∧ color ≠ EmptyString
    ∧ (cf = NewColoredFormatter → (color = ESC +:+ "[0m" ↔ ¬ (0 ≤ l ≤ 5))).
Proof.
  unfold ColoredFormatter_Format.
  set (color0 := default EmptyString (Colors cf !! LogLevel_String l)).
  set (color := if bool_decide (color0 = EmptyString) then ESC +:+ "[0m" else color0).
  assert (color ≠ EmptyString) as Hcolor.
  { unfold color. case_bool_decide; [|done]. by unfold ESC. }
  assert (cf = NewColoredFormatter → (color = ESC +:+ "[0m" ↔ ¬ (0 ≤ l ≤ 5))) as Htable.
  { intros ->. unfold color, color0.
    destruct (LogLevel_String_cases l)
      as [[-> ->]|[[-> ->]|[[-> ->]|[[-> ->]|[[-> ->]|[[-> ->]|[Hout ->]]]]]]];
      vm_compute; split; try done; try lia; try (intros Hf; exfalso; apply Hf; done).
    all: intros Hf; exfalso; apply Hf; split; discriminate. }
  destruct (LogLevel_String_cases l)
    as [[_ ->]|[[_ ->]|[[_ ->]|[[_ ->]|[[_ ->]|[[_ ->]|[_ ->]]]]]]];
    eexists color, _; (split; [reflexivity|]); (split; [reflexivity|]); done.
Qed.

(** The level read from LOG_LEVEL is always one of the six, DEBUG when
    the value names none of them. A level name that upper-casing leaves
    as it is reads back as its level, from the environment and through
    [SetLevelFromString]; a string that names no level leaves the level
    of a logger unchanged. *)
Theorem LogLevel_from_string :
  (∀ s, TRACE ≤ getLogLevelFromEnv s ≤ FATAL)
  ∧ (∀ l lg,
       TRACE ≤ l ≤ FATAL →
       strings_ToUpper (LogLevel_String l) = LogLevel_String l →
       getLogLevelFromEnv (LogLevel_String l) = l
       ∧ level (SetLevelFromString lg (LogLevel_String l)) = l
       ∧ formatter (SetLevelFromString lg (LogLevel_String l)) = formatter lg)
  ∧ (∀ s lg,
       (∀ l, strings_ToUpper s ≠ LogLevel_String l ∨ ¬ (TRACE ≤ l ≤ FATAL)) →
       getLogLevelFromEnv s = DEBUG ∧ SetLevelFromString lg s = lg).
Proof.
  split; [|split].
  - intros s. unfold getLogLevelFromEnv, TRACE, DEBUG, INFO, WARNING, ERROR, FATAL.
    repeat case_bool_decide; lia.
  - intros l lg Hrange Hupper.
    unfold getLogLevelFromEnv, SetLevelFromString. rewrite Hupper.
    unfold TRACE, FATAL in Hrange.
    destruct (LogLevel_String_cases l)
      as [[-> ->]|[[-> ->]|[[-> ->]|[[-> ->]|[[-> ->]|[[-> ->]|[Hout _]]]]]]];
      [done..|lia].
  - intros s lg Hnone.
    assert (∀ l, TRACE ≤ l ≤ FATAL → strings_ToUpper s ≠ LogLevel_String l) as Hne.
    { intros l Hl. by destruct (Hnone l). }
    unfold getLogLevelFromEnv, SetLevelFromString.
    pose proof (Hne 0) as Hname0. pose proof (Hne 1) as Hname1. pose proof (Hne 2) as Hname2.
    pose proof (Hne 3) as Hname3. pose proof (Hne 4) as Hname4. pose proof (Hne 5) as Hname5.
    unfold TRACE, FATAL in *.
    change (LogLevel_String 0) with "TRACE" in Hname0.
    change (LogLevel_String 1) with "DEBUG" in Hname1.
    change (LogLevel_String 2) with "INFO" in Hname2.
    change (LogLevel_String 3) with "WARNING" in Hname3.
    change (LogLevel_String 4) with "ERROR" in Hname4.
    change (LogLevel_String 5) with "FATAL" in Hname5.
    rewrite !bool_decide_eq_false_2 by (first [apply Hname0|apply Hname1|apply Hname2
                                              |apply Hname3|apply Hname4|apply Hname5]; lia).
    done.
Qed.


End logger_properties.

(** * The functions at work on the scripted world *)

Section examples.

Example Error_example :
  Error (ErrExecuteTool "search" 2 (ErrNoServer "search"))
  = "failed to execute tool search (iteration 2): no server found for tool: search".
Proof. reflexivity. Qed.

Example Run_answer_example :
  let x := @Run (scriptedWorld alwaysAnswer) (scriptedAgent _ 3) tt "2+2?" 0%nat in
  returned x = Some (Ok (scriptedResponse "4" []))
  ∧ modelCallCount (events x) = 1%nat
  ∧ final_world x = 1%nat.
Proof. vm_compute. done. Qed.

Example Run_tool_round_example :
  let x := @Run (scriptedWorld toolThenAnswer) (scriptedAgent _ 3) tt "2+2?" 0%nat in
  returned x = Some (Ok (scriptedResponse "4" []))
  ∧ Content <$> conversation x = ["You are helpful."; "2+2?"; EmptyString; "[]"; "4"]
  ∧ Role <$> conversation x = ["system"; "user"; "assistant"; "tool"; "assistant"]
  ∧ ToolCallId <$> conversation x
    = [EmptyString; EmptyString; EmptyString; "call_1"; EmptyString].
Proof. vm_compute. done. Qed.

(** A run that a tool call aborts: the second call of the message does
    not parse, [Run] returns the error, and the slice it abandons holds
    the answer to the first call only. *)
Example Run_aborted_example :
  let x := @Run (scriptedWorld badSecondCall) (scriptedAgent _ 3) tt "2+2?" 0%nat in
  returned x
  = Some (Err (ErrExecuteTool "search" 1
                 (ErrParseArguments (ErrExternal "unexpected end of JSON input"))))
  ∧ modelCallCount (events x) = 1%nat
  ∧ toolCallCount (events x) = 2%nat
  ∧ Role <$> conversation x = ["system"; "user"; "assistant"; "tool"].
Proof. vm_compute. done. Qed.

Example ListAllTools_example :
  (@ListAllTools (scriptedWorld alwaysAnswer) (McpManager (scriptedClient _)) tt 0%nat).1.2
  = ([scriptedEntry "search" "{}" "alpha"], None).
Proof. vm_compute. done. Qed.

Example GetServerForTool_example :
  let catalog :=
    [scriptedEntry "search" "{}" "alpha"; scriptedEntry "fetch" "chan" "alpha";
     scriptedEntry "search" "null" "beta"] in
  let tm := (ConvertMCPToolsToOpenAI NewToolManager catalog).2 in
  GetServerForTool tm "search" = ("beta", true)
  ∧ GetServerForTool tm "fetch" = ("alpha", true)
  ∧ GetServerForTool tm "delete" = (EmptyString, false)
  ∧ (Function_Parameters ∘ Tool_Function <$> (ConvertMCPToolsToOpenAI NewToolManager catalog).1)
    = [Some ∅; emptyObjectSchema; None].
Proof. vm_compute. done. Qed.

End examples.

(** * The theorems at concrete inputs *)

Section witnesses.



(** C2 with a budget of 2 and a model that always asks for a tool. *)
Lemma Run_exhausts_budget_witness :
  let a := scriptedAgent alwaysTool 2 in
  let x := @Run (scriptedWorld alwaysTool) a tt "2+2?" 0%nat in
  (1 ≤ maxIterations a
   ∧ forallb requestsTools (events x) = true
   ∧ forallb toolSucceeded (events x) = true)
  ∧ Z.of_nat (modelCallCount (events x)) = 2
  ∧ ∃ resp choice,
      returned x = Some (Ok resp)
      ∧ Choices resp = [choice]
      ∧ Role (Message choice) = "assistant"
      ∧ FinishReason choice = "length"
      ∧ PromptTokens (Usage resp) = 0
      ∧ CompletionTokens (Usage resp) = 0
      ∧ TotalTokens (Usage resp) = 0.
Proof.
  split; [split; [simpl; lia|split; vm_compute; reflexivity]|].
  apply (@Run_exhausts_budget (scriptedWorld alwaysTool) (scriptedAgent alwaysTool 2)
           tt "2+2?" 0%nat);
    [simpl; lia|vm_compute; reflexivity|vm_compute; reflexivity].
Defined.

(** C3 with a model that answers at once. *)
Lemma Run_first_answer_witness :
  let a := scriptedAgent alwaysAnswer 3 in
  let x := @Run (scriptedWorld alwaysAnswer) a tt "2+2?" 0%nat in
  let req := firstRequest a "2+2?" in
  let resp := scriptedResponse "4" [] in
  head (events x) = Some (EvModel 1 req (Ok resp))
  ∧ events x = [EvModel 1 req (Ok resp)]
  ∧ modelCallCount (events x) = 1%nat
  ∧ toolCallCount (events x) = 0%nat
  ∧ returned x = Some (Ok resp).
Proof.
  split; [vm_compute; reflexivity|].
  destruct (@Run_first_answer (scriptedWorld alwaysAnswer) (scriptedAgent alwaysAnswer 3)
              tt "2+2?" 0%nat 1 (firstRequest (scriptedAgent alwaysAnswer 3) "2+2?")
              (scriptedResponse "4" [])
              {| Index := 0;
                 Message := {| Role := "assistant"; Content := "4";
                               ToolCalls := []; ToolCallId := EmptyString |};
                 FinishReason := "stop" |} [])
    as (Hev & Hmodel & Htool & Hret & _);
    [vm_compute; reflexivity|vm_compute; reflexivity|vm_compute; reflexivity|].
  repeat split; assumption.
Defined.

(** C4 on two successive catalogs. *)
Lemma GetServerForTool_after_Convert_witness :
  let earlier := [scriptedEntry "fetch" "{}" "alpha"] in
  let catalog :=
    [scriptedEntry "search" "{}" "alpha"; scriptedEntry "search" "{}" "beta"] in
  let tm1 := (ConvertMCPToolsToOpenAI NewToolManager earlier).2 in
  let tm2 := (ConvertMCPToolsToOpenAI tm1 catalog).2 in
  GetServerForTool tm1 "fetch" = ("alpha", true)
  ∧ GetServerForTool tm2 "search" = ("beta", true)
  ∧ GetServerForTool tm2 "fetch" = (EmptyString, false).
Proof.
  split; [vm_compute; reflexivity|].
  pose proof (@GetServerForTool_after_Convert (scriptedWorld alwaysAnswer)
                (ConvertMCPToolsToOpenAI NewToolManager
                   [scriptedEntry "fetch" "{}" "alpha"]).2
                [scriptedEntry "search" "{}" "alpha"; scriptedEntry "search" "{}" "beta"]
                "search") as [Hlast _].
  pose proof (@GetServerForTool_after_Convert (scriptedWorld alwaysAnswer) NewToolManager
                [scriptedEntry "search" "{}" "alpha"; scriptedEntry "search" "{}" "beta"]
                "fetch") as (_ & _ & Hstale).
  split.
  - refine (eq_trans Hlast _). vm_compute. reflexivity.
  - apply (Hstale [scriptedEntry "fetch" "{}" "alpha"]).
    + exists (scriptedEntry "fetch" "{}" "alpha"). split; [left|reflexivity].
    + intros (e & Hin & Hname). vm_compute in Hname.
      apply elem_of_cons in Hin as [->|Hin]; [discriminate|].
      apply elem_of_cons in Hin as [->|Hin]; [discriminate|].
      by apply not_elem_of_nil in Hin.
Defined.

(** C5 on a call without arguments and on one whose arguments do not
    parse. *)
Lemma executeToolCall_arguments_witness :
  let a := scriptedAgent badSecondCall 3 in
  @executeToolCall (scriptedWorld badSecondCall) a tt 0%nat (toolCallWith EmptyString)
  = (0%nat, Ok "[]")
  ∧ @executeToolCall (scriptedWorld badSecondCall) a tt 0%nat (toolCallWith "{")
    = (0%nat, Err (ErrParseArguments (ErrExternal "unexpected end of JSON input")))
  ∧ ∃ e, returned (@Run (scriptedWorld badSecondCall) a tt "2+2?" 0%nat) = Some (Err e).
Proof.
  pose proof (@executeToolCall_arguments (scriptedWorld badSecondCall)
                (scriptedAgent badSecondCall 3) tt 0%nat (toolCallWith EmptyString))
    as [Hempty _].
  pose proof (@executeToolCall_arguments (scriptedWorld badSecondCall)
                (scriptedAgent badSecondCall 3) tt 0%nat (toolCallWith "{"))
    as [_ Hbad].
  split; [|split].
  - refine (eq_trans (proj2 (Hempty eq_refl)) _). vm_compute. reflexivity.
  - apply (Hbad ltac:(discriminate) (ErrExternal "unexpected end of JSON input")).
    vm_compute. reflexivity.
  - apply (proj2 (Hbad ltac:(discriminate)
                    (ErrExternal "unexpected end of JSON input") eq_refl)
             "2+2?" 0%nat 1
             (firstRequest (scriptedAgent badSecondCall 3) "2+2?")
             (scriptedResponse EmptyString [toolCallWith "{}"; toolCallWith "{"])
             {| Index := 0;
                Message := {| Role := "assistant"; Content := EmptyString;
                              ToolCalls := [toolCallWith "{}"; toolCallWith "{"];
                              ToolCallId := EmptyString |};
                FinishReason := "tool_calls" |} []).
    + vm_compute. left.
    + vm_compute. reflexivity.
    + right. left.
Defined.

(** C6 and C10 on the pool of the scripted client: ["alpha"] lists one
    tool, ["beta"] is down. *)
Lemma ListAllTools_union_witness :
  let m := McpManager (scriptedClient alwaysAnswer) in
  let allTools := (@ListAllTools (scriptedWorld alwaysAnswer) m tt 0%nat).1.2.1 in
  (∀ client w1 w2,
     (@MCPClient_ListTools (scriptedWorld alwaysAnswer) w1 tt client).2
     = (@MCPClient_ListTools (scriptedWorld alwaysAnswer) w2 tt client).2)
  ∧ scriptedEntry "search" "{}" "alpha" ∈ allTools
  ∧ (∀ e, e ∈ allTools → ServerName e ≠ "beta").
Proof.
  intros m allTools.
  assert (∀ client w1 w2,
            (@MCPClient_ListTools (scriptedWorld alwaysAnswer) w1 tt client).2
            = (@MCPClient_ListTools (scriptedWorld alwaysAnswer) w2 tt client).2)
    as Hstateless by reflexivity.
  destruct (@ListAllTools_union (scriptedWorld alwaysAnswer) m tt 0%nat)
    as (_ & _ & _ & _ & _ & _ & Hfailed & Hunion).
  split; [exact Hstateless|]. split.
  - apply (Hunion Hstateless). exists 0%nat, [scriptedTool "search" "{}"].
    split; [vm_compute; reflexivity|]. split; [vm_compute; reflexivity|]. left.
  - apply (Hfailed "beta" 1%nat 0%nat (ErrExternal "connection refused")).
    + vm_compute. right. left.
    + vm_compute. reflexivity.
Defined.

Lemma ListAllTools_error_nil_witness :
  (@ListAllTools (scriptedWorld alwaysAnswer) (McpManager (scriptedClient _)) tt 0%nat).1.2.2 = None
  ∧ (@listTools (scriptedWorld alwaysAnswer) (scriptedClient _) tt 0%nat).2
    = JSON 200 (H_tools [scriptedEntry "search" "{}" "alpha"] 1).
Proof.
  destruct (@ListAllTools_error_nil (scriptedWorld alwaysAnswer) (scriptedClient _) tt 0%nat)
    as (Hnil & Hlist & _).
  split; [exact Hnil|]. refine (eq_trans Hlist _). vm_compute. reflexivity.
Defined.

(** C7 on a schema that encodes and one that does not. *)
Lemma ConvertMCPToolsToOpenAI_tools_witness :
  let catalog :=
    [scriptedEntry "search" "{}" "alpha"; scriptedEntry "fetch" "chan" "beta"] in
  (ConvertMCPToolsToOpenAI NewToolManager catalog).1 = convertedTool <$> catalog
  ∧ @convertParameters (scriptedWorld alwaysAnswer) "{}" = Some ∅
  ∧ ∃ m, @convertParameters (scriptedWorld alwaysAnswer) "chan" = Some m
      ∧ m !! "type" = Some (JString "object")
      ∧ m !! "properties" = Some (JObject ∅)
      ∧ dom m = {["type"; "properties"]}.
Proof.
  destruct (@ConvertMCPToolsToOpenAI_tools (scriptedWorld alwaysAnswer) NewToolManager
              [scriptedEntry "search" "{}" "alpha"; scriptedEntry "fetch" "chan" "beta"])
    as (Htools & _ & Hok & Hfallback).
  split; [exact Htools|]. split.
  - apply (Hok "{}" "{}" (Some ∅)); vm_compute; reflexivity.
  - apply (Hfallback "chan"). left.
    exists (ErrExternal "json: unsupported type: chan int"). vm_compute. reflexivity.
Defined.

(** C8 with [max_iterations] left out of the request, hence zero. *)
Lemma NewAgent_default_maxIterations_witness :
  let config := {| Config_Name := "demo-agent"; Config_Model := "gpt-4o-mini";
                   Config_SystemPrompt := EmptyString; Config_MaxIterations := 0 |} in
  let a := @NewAgent (scriptedWorld alwaysAnswer) config (scriptedClient _) in
  Config_MaxIterations config ≤ 0
  ∧ maxIterations a = 10
  ∧ (1 ≤ modelCallCount (events (@Run (scriptedWorld alwaysAnswer) a tt "2+2?" 0%nat)))%nat.
Proof.
  split; [simpl; lia|].
  apply (@NewAgent_default_maxIterations (scriptedWorld alwaysAnswer)). simpl. lia.
Defined.

(** C9 with a budget set to zero. *)
Lemma SetMaxIterations_nonpositive_witness :
  let a := SetMaxIterations (scriptedAgent alwaysTool 3) 0 in
  let x := @Run (scriptedWorld alwaysTool) a tt "2+2?" 0%nat in
  0 ≤ 0
  ∧ maxIterations a = 0
  ∧ events x = []
  ∧ modelCallCount (events x) = 0%nat
  ∧ toolCallCount (events x) = 0%nat
  ∧ returned x = Some (Ok (createMaxIterationsResponse a 0%nat).2).
Proof.
  split; [lia|].
  destruct (@SetMaxIterations_nonpositive (scriptedWorld alwaysTool) (scriptedAgent alwaysTool 3)
              0 tt "2+2?" 0%nat ltac:(lia)) as (H1 & H2 & H3 & H4 & H5 & _).
  repeat split; assumption.
Defined.

End witnesses.

(** * The further functions at work on the scripted world *)

Section examples_more.

Example getMCPServersConfig_example :
  getMCPServersConfig "https://run.blaxel.ai" "ws"
    ["blaxel-search"; EmptyString]
  = [ {| MCPServerConfig_Name := "blaxel-search";
         MCPServerConfig_URL := "https://run.blaxel.ai/ws/functions/blaxel-search" |};
      {| MCPServerConfig_Name := EmptyString;
         MCPServerConfig_URL := "https://run.blaxel.ai/ws/functions/" |} ].
Proof. reflexivity. Qed.

Example NewClient_addServers_example :
  let configs :=
    [ {| MCPServerConfig_Name := "alpha"; MCPServerConfig_URL := "down" |};
      {| MCPServerConfig_Name := "beta"; MCPServerConfig_URL := "http://beta" |} ] in
  let '(_, m, logged) :=
    @NewClient_addServers _ (scriptedRuntime alwaysAnswer) configs
      (NewMCPManager ∅) 0%nat in
  servers m = {[ "beta" := 11%nat ]}
  ∧ logged
    = [ ("alpha", Some (ErrCreateMCPClient "alpha"
                          (ErrExternal "dial tcp: connection refused")));
        ("beta", None) ].
Proof. vm_compute. done. Qed.

Example Close_example :
  (@Close _ (scriptedRuntime alwaysAnswer) (McpManager (scriptedClient _)) 0%nat).1.2
  = Some (ErrExternal "close: broken pipe").
Proof. vm_compute. done. Qed.

Example CreateChatCompletion_status_example :
  @CreateChatCompletion (upstreamWorld 503) (upstreamClient 503) 0%nat
    (userRequest "2+2?")
  = (1%nat, Err (ErrAPIStatus 503 "answer")).
Proof. vm_compute. done. Qed.

Example streamAgent_example :
  (@streamAgent _ (scriptedRuntime toolThenAnswer) (scriptedClient _) tt
     (Ok {| Inputs := "2+2?"; AgentRequest_MaxIterations := 0;
            AgentRequest_Model := EmptyString;
            AgentRequest_SystemPrompt := EmptyString |}) 0%nat).1.2
  = Streamed ["4"].
Proof. vm_compute. done. Qed.

Example ColoredFormatter_Format_example :
  ColoredFormatter_Format NewColoredFormatter INFO "ready"
  = Some (ESC +:+ "[1;32mINFO" +:+ ESC +:+ "[0m:    ready").
Proof. vm_compute. done. Qed.

End examples_more.

(** * The further theorems at concrete inputs *)

Section witnesses_more.

Lemma Run_response_final_witness :
  let x := @Run (scriptedWorld toolThenAnswer) (scriptedAgent _ 3) tt "2+2?" 0%nat in
  returned x = Some (Ok (scriptedResponse "4" []))
  ∧ ∃ choice choices,
      Choices (scriptedResponse "4" []) = choice :: choices
      ∧ ToolCalls (Message choice) = [].
Proof.
  split; [vm_compute; reflexivity|].
  apply (@Run_response_final (scriptedWorld toolThenAnswer) (scriptedAgent _ 3)
           tt "2+2?" 0%nat (scriptedResponse "4" [])).
  vm_compute. reflexivity.
Defined.

Lemma Run_error_iteration_witness :
  let x := @Run (scriptedWorld badSecondCall) (scriptedAgent _ 3) tt "2+2?" 0%nat in
  let e := ErrExecuteTool "search" 1
             (ErrParseArguments (ErrExternal "unexpected end of JSON input")) in
  returned x = Some (Err e)
  ∧ 1 ≤ Z.of_nat (modelCallCount (events x)) ≤ 3.
Proof.
  split; [vm_compute; reflexivity|].
  apply (@Run_error_iteration (scriptedWorld badSecondCall) (scriptedAgent _ 3)
           tt "2+2?" 0%nat
           (ErrExecuteTool "search" 1
              (ErrParseArguments (ErrExternal "unexpected end of JSON input")))).
  vm_compute. reflexivity.
Defined.

Lemma Run_requests_witness :
  let a := scriptedAgent alwaysTool 2 in
  let x := @Run (scriptedWorld alwaysTool) a tt "2+2?" 0%nat in
  match events x !! 2%nat with
  | Some (EvModel i req res) =>
      i = Z.of_nat (modelCallCount (take 2 (events x))) + 1
      ∧ Tools req = tools a
      ∧ Request_Model req = EmptyString
      ∧ Stream req = false
      ∧ initialMessages a "2+2?" `prefix_of` Messages req
  | _ => False
  end.
Proof.
  intros a x.
  destruct (events x !! 2%nat) as [[i req res| |]|] eqn:E.
  - exact (@Run_requests (scriptedWorld alwaysTool) a tt "2+2?" 0%nat 2%nat i req res E).
  - vm_compute in E. discriminate E.
  - vm_compute in E. discriminate E.
  - vm_compute in E. discriminate E.
Defined.

Lemma Run_history_append_only_witness :
  let a := scriptedAgent alwaysTool 2 in
  let x := @Run (scriptedWorld alwaysTool) a tt "2+2?" 0%nat in
  match events x !! 0%nat with
  | Some (EvModel i req res) => Messages req `prefix_of` conversation x
  | _ => False
  end.
Proof.
  intros a x.
  destruct (events x !! 0%nat) as [[i req res| |]|] eqn:E.
  - exact (proj1 (@Run_history_append_only (scriptedWorld alwaysTool) a tt "2+2?"
                    0%nat 0%nat i req res E)).
  - vm_compute in E. discriminate E.
  - vm_compute in E. discriminate E.
  - vm_compute in E. discriminate E.
Defined.

Lemma executeToolCall_unroutable_witness :
  let unregistered := SetToolManager (scriptedAgent alwaysAnswer 3) NewToolManager in
  let misrouted :=
    SetToolManager (scriptedAgent alwaysAnswer 3)
      {| toolServerMap := {[ "search" := "gamma" ]} |} in
  @wellFormedArguments (scriptedWorld alwaysAnswer) (toolCallWith "{}")
  ∧ @executeToolCall (scriptedWorld alwaysAnswer) unregistered tt 0%nat (toolCallWith "{}")
    = (0%nat, Err (ErrNoServer "search"))
  ∧ @executeToolCall (scriptedWorld alwaysAnswer) misrouted tt 0%nat (toolCallWith "{}")
    = (0%nat, Err (ErrCallTool "search" (ErrServerNotFound "gamma"))).
Proof.
  assert (@wellFormedArguments (scriptedWorld alwaysAnswer) (toolCallWith "{}")) as Hargs.
  { right. exists (JObject ∅). vm_compute. reflexivity. }
  split; [exact Hargs|]. split.
  - apply (proj1 (@executeToolCall_unroutable (scriptedWorld alwaysAnswer)
                    (SetToolManager (scriptedAgent alwaysAnswer 3) NewToolManager)
                    tt 0%nat (toolCallWith "{}") Hargs)).
    vm_compute. reflexivity.
  - apply (proj2 (@executeToolCall_unroutable (scriptedWorld alwaysAnswer)
                    (SetToolManager (scriptedAgent alwaysAnswer 3)
                       {| toolServerMap := {[ "search" := "gamma" ]} |})
                    tt 0%nat (toolCallWith "{}") Hargs) "gamma");
      vm_compute; reflexivity.
Defined.

Lemma executeToolCall_Ok_inv_witness :
  let a := scriptedAgent alwaysAnswer 3 in
  @executeToolCall (scriptedWorld alwaysAnswer) a tt 0%nat (toolCallWith "{}")
  = (0%nat, Ok "[]")
  ∧ ∃ params serverName client toolResult,
      ((ToolCallFunction_Arguments (ToolCall_Function (toolCallWith "{}")) = EmptyString
        ∧ params = JNull)
       ∨ (ToolCallFunction_Arguments (ToolCall_Function (toolCallWith "{}")) ≠ EmptyString
          ∧ @json_Unmarshal (scriptedWorld alwaysAnswer) "{}" = Ok params))
      ∧ GetServerForTool (toolManager a) "search" = (serverName, true)
      ∧ servers (McpManager (blaxelClient a)) !! serverName = Some client
      ∧ @MCPClient_CallTool (scriptedWorld alwaysAnswer) 0%nat tt client "search" params
        = (0%nat, Ok toolResult)
      ∧ @json_Marshal_content (scriptedWorld alwaysAnswer)
          (CallToolResult_Content toolResult) = Ok "[]".
Proof.
  split; [vm_compute; reflexivity|].
  apply (@executeToolCall_Ok_inv (scriptedWorld alwaysAnswer)
           (scriptedAgent alwaysAnswer 3) tt 0%nat (toolCallWith "{}") 0%nat "[]").
  vm_compute. reflexivity.
Defined.

Lemma CreateChatCompletion_Ok_inv_witness :
  @CreateChatCompletion (scriptedWorld alwaysAnswer) (scriptedClient _) 0%nat
    (userRequest "2+2?")
  = (1%nat, Ok (scriptedResponse "4" []))
  ∧ ∃ jsonData httpResp body,
      @json_Marshal_request (scriptedWorld alwaysAnswer) (userRequest "2+2?")
      = Ok jsonData
      ∧ @BlaxelClient_Run (scriptedWorld alwaysAnswer) 0%nat "ws" "sandbox-openai"
          false jsonData = (1%nat, Ok httpResp)
      ∧ Body httpResp = Ok body
      ∧ StatusCode httpResp = 200
      ∧ @json_Unmarshal_response (scriptedWorld alwaysAnswer) body
        = Ok (scriptedResponse "4" []).
Proof.
  split; [vm_compute; reflexivity|].
  apply (@CreateChatCompletion_Ok_inv (scriptedWorld alwaysAnswer)
           (scriptedClient alwaysAnswer) 0%nat (userRequest "2+2?") 1%nat
           (scriptedResponse "4" [])).
  vm_compute. reflexivity.
Defined.

Lemma CreateChatCompletion_failures_witness :
  @CreateChatCompletion (upstreamWorld 503) (upstreamClient 503) 0%nat emptyRequest
  = (0%nat, Err (ErrMarshalRequest (ErrExternal "json: unsupported value")))
  ∧ @CreateChatCompletion (upstreamWorld 503) (upstreamClient 503) 0%nat
      (userRequest "2+2?")
    = (1%nat, Err (ErrAPIStatus 503 "answer")).
Proof.
  destruct (@CreateChatCompletion_failures (upstreamWorld 503) (upstreamClient 503)
              0%nat emptyRequest) as [Hencode _].
  destruct (@CreateChatCompletion_failures (upstreamWorld 503) (upstreamClient 503)
              0%nat (userRequest "2+2?")) as [_ Hstatus].
  split.
  - apply Hencode. vm_compute. reflexivity.
  - refine (eq_trans (Hstatus "{...}" 1%nat
                        {| StatusCode := 503; Body := Ok "answer" |} "answer"
                        _ _ _ _) _);
      [vm_compute; reflexivity..|simpl; lia|vm_compute; reflexivity].
Defined.

Lemma LogLevel_from_string_witness :
  @getLogLevelFromEnv _ (scriptedRuntime alwaysAnswer) "WARNING" = WARNING
  ∧ @getLogLevelFromEnv _ (scriptedRuntime alwaysAnswer) "verbose" = DEBUG.
Proof.
  destruct (@LogLevel_from_string _ (scriptedRuntime alwaysAnswer))
    as (_ & Hname & Hother).
  split.
  - apply (Hname WARNING {| level := DEBUG; formatter := λ _ _, None |});
      [vm_compute; split; discriminate|vm_compute; reflexivity].
  - apply (Hother "verbose" {| level := DEBUG; formatter := λ _ _, None |}).
    intros l. destruct (LogLevel_String_cases l)
      as [[-> ->]|[[-> ->]|[[-> ->]|[[-> ->]|[[-> ->]|[[-> ->]|[Hout _]]]]]]];
      [left; vm_compute; discriminate..|right; exact Hout].
Defined.

End witnesses_more.
